(** * Gmail fetcher (agent.py): normalizer and concurrent orchestrator

    A shallow embedding of [AsyncGmailClient.parse_message] with its two
    local functions [get_header_value] and [extract_text_from_payload],
    of the request helpers of [AsyncGmailClient], of
    [fetch_gmail_data_async] and of [format_output], followed by the
    properties of the specification that concern them.

    Python values are modelled as follows.
    - [str] is a sequence of Unicode code points: [pystr = list Z].
    - [bytes] is a sequence of octets: [list Z] with entries in 0..255.
    - The value returned by [response.json()] is a [json] tree; a [dict]
      is a finite map from [str] keys ([gmap]).  Gmail resources carry
      integer numbers only, so JSON numbers are integers here.
    - A raised exception is the [Raise] alternative of [result].

    The library functions that the code calls ([int], [base64],
    [datetime], [asyncio.gather]) are modelled as CPython 3.11 runs them
    on Linux with the GNU C library. *)

From Stdlib Require Import ZArith Ascii String Lia.
From stdpp Require Import strings gmap list fin_maps pretty.

Set Warnings "-register-all".
Local Open Scope Z_scope.

Module Gmail.

(** ** Python values *)

Abbreviation pystr := (list Z).

(** A string literal of the source, as code points. *)
Definition str (s : string) : pystr :=
  (fun a => Z.of_N (N_of_ascii a)) <$> list_ascii_of_string s.
Arguments str : simpl never.

Inductive json :=
| JNull
| JBool (b : bool)
| JInt (n : Z)
| JStr (s : pystr)
| JList (l : list json)
| JDict (d : gmap (list Z) json).

(** Exception classes that the modelled code can raise.  [RangeError]
    stands for what [datetime.fromtimestamp] raises outside its supported
    range ([OverflowError], [OSError] or [ValueError], by platform);
    [BinasciiError] and [UnicodeError] are the [ValueError] subclasses of
    [binascii] and of the codecs. *)
Inductive exn :=
| AttributeError
| TypeError
| KeyError
| ValueError
| BinasciiError
| UnicodeError
| RangeError
| JSONDecodeError
| TransportError
| HTTPStatusError (status : Z).

Inductive result (A : Type) :=
| Ok (a : A)
| Raise (e : exn).
Arguments Ok {A} a.
Arguments Raise {A} e.

#[global] Instance result_ret : MRet result := fun A a => Ok a.
#[global] Instance result_bind : MBind result := fun A B f m =>
  match m with
  | Ok a => f a
  | Raise e => Raise e
  end.
#[global] Instance result_fmap : FMap result := fun A B f m =>
  match m with
  | Ok a => Ok (f a)
  | Raise e => Raise e
  end.

(** [try: m except: h] with a bare [except]. *)
Definition try_except {A} (m : result A) (h : result A) : result A :=
  match m with
  | Ok a => Ok a
  | Raise _ => h
  end.

(** Truth value of an object ([if x], [not x]). *)
Definition truthy (v : json) : bool :=
  match v with
  | JNull => false
  | JBool b => b
  | JInt n => negb (n =? 0)
  | JStr s => match s with [] => false | _ => true end
  | JList l => match l with [] => false | _ => true end
  | JDict d => match map_to_list d with [] => false | _ => true end
  end.

(** [o.get(k, default)]: only a dict has the method. *)
Definition py_get (o : json) (k : pystr) (default : json) : result json :=
  match o with
  | JDict d => Ok (from_option id default (d !! k))
  | _ => Raise AttributeError
  end.

(** [o[k]] for a string key [k]. *)
Definition py_getitem (o : json) (k : pystr) : result json :=
  match o with
  | JDict d => match d !! k with Some v => Ok v | None => Raise KeyError end
  | _ => Raise TypeError
  end.

(** The items produced by [for x in o]: the elements of a list, the
    one-character strings of a str, the keys of a dict. *)
Definition py_iter (o : json) : result (list json) :=
  match o with
  | JList l => Ok l
  | JStr s => Ok ((fun c => JStr [c]) <$> s)
  | JDict d => Ok ((fun kv => JStr kv.1) <$> map_to_list d)
  | _ => Raise TypeError
  end.

(** [x == s] for a str [s]: only an equal str compares equal. *)
Definition py_eq_str (x : json) (s : pystr) : bool :=
  match x with
  | JStr t => bool_decide (t = s)
  | _ => false
  end.

(** [x + s] for a str [s]: concatenation when [x] is a str. *)
Definition py_add_str (x : json) (s : pystr) : result pystr :=
  match x with
  | JStr t => Ok (t ++ s)
  | _ => Raise TypeError
  end.

(** [sep.join(items)] *)
Fixpoint join (sep : pystr) (items : list pystr) : pystr :=
  match items with
  | [] => []
  | [x] => x
  | x :: rest => x ++ sep ++ join sep rest
  end.

(** ** Library functions used by the normalizer *)

(** *** UTF-8 ([str.encode('utf-8')], [bytes.decode('utf-8')]) *)

(** The octets of one code point; [None] for what no str can be encoded
    from (a surrogate, or a value outside 0..0x10FFFF). *)
Definition utf8_encode_cp (c : Z) : option (list Z) :=
  if c <? 0 then None
  else if c <? 0x80 then Some [c]
  else if c <? 0x800 then Some [0xC0 + c / 64; 0x80 + c mod 64]
  else if c <? 0x10000 then
    if (0xD800 <=? c) && (c <=? 0xDFFF) then None
    else Some [0xE0 + c / 4096; 0x80 + (c / 64) mod 64; 0x80 + c mod 64]
  else if c <? 0x110000 then
    Some [0xF0 + c / 262144; 0x80 + (c / 4096) mod 64;
          0x80 + (c / 64) mod 64; 0x80 + c mod 64]
  else None.

Fixpoint utf8_encode (s : pystr) : option (list Z) :=
  match s with
  | [] => Some []
  | c :: r =>
    match utf8_encode_cp c, utf8_encode r with
    | Some bs, Some rs => Some (bs ++ rs)
    | _, _ => None
    end
  end.

Definition is_continuation (b : Z) : bool := (0x80 <=? b) && (b <=? 0xBF).

(** Strict decoding: overlong forms, surrogates, values above 0x10FFFF,
    stray continuation octets and truncated sequences are rejected. *)
Fixpoint utf8_decode (bs : list Z) : option pystr :=
  match bs with
  | [] => Some []
  | b0 :: r0 =>
    if (0 <=? b0) && (b0 <? 0x80) then cons b0 <$> utf8_decode r0
    else if (0xC2 <=? b0) && (b0 <=? 0xDF) then
      match r0 with
      | b1 :: r1 =>
        if is_continuation b1
        then cons ((b0 - 0xC0) * 64 + (b1 - 0x80)) <$> utf8_decode r1
        else None
      | _ => None
      end
    else if (0xE0 <=? b0) && (b0 <=? 0xEF) then
      match r0 with
      | b1 :: b2 :: r2 =>
        let c := (b0 - 0xE0) * 4096 + (b1 - 0x80) * 64 + (b2 - 0x80) in
        if is_continuation b1 && is_continuation b2 && (0x800 <=? c)
           && negb ((0xD800 <=? c) && (c <=? 0xDFFF))
        then cons c <$> utf8_decode r2
        else None
      | _ => None
      end
    else if (0xF0 <=? b0) && (b0 <=? 0xF4) then
      match r0 with
      | b1 :: b2 :: b3 :: r3 =>
        let c := (b0 - 0xF0) * 262144 + (b1 - 0x80) * 4096
                 + (b2 - 0x80) * 64 + (b3 - 0x80) in
        if is_continuation b1 && is_continuation b2 && is_continuation b3
           && (0x10000 <=? c) && (c <? 0x110000)
        then cons c <$> utf8_decode r3
        else None
      | _ => None
      end
    else None
  end.

(** [bs.decode('utf-8')] *)
Definition bytes_decode_utf8 (bs : list Z) : result pystr :=
  match utf8_decode bs with
  | Some s => Ok s
  | None => Raise UnicodeError
  end.

(** *** Base64 ([base64.urlsafe_b64encode], [base64.urlsafe_b64decode]) *)

(** The URL-safe alphabet: A-Z, a-z, 0-9, '-', '_'. *)
Definition b64_urlsafe_char (v : Z) : Z :=
  if v <? 26 then 65 + v
  else if v <? 52 then 71 + v
  else if v <? 62 then v - 4
  else if v =? 62 then 45
  else 95.

(** [binascii]'s table of the standard alphabet (with '+' and '/'). *)
Definition table_a2b_base64 (c : Z) : option Z :=
  if (65 <=? c) && (c <=? 90) then Some (c - 65)
  else if (97 <=? c) && (c <=? 122) then Some (c - 71)
  else if (48 <=? c) && (c <=? 57) then Some (c + 4)
  else if c =? 43 then Some 62
  else if c =? 47 then Some 63
  else None.

(** [bytes.maketrans(b'-_', b'+/')] *)
Definition urlsafe_decode_translation (c : Z) : Z :=
  if c =? 45 then 43 else if c =? 95 then 47 else c.

(** [urlsafe_b64encode]: every three octets give four characters; a last
    group of one or two octets is completed with '='. *)
Fixpoint urlsafe_b64encode (bs : list Z) : pystr :=
  match bs with
  | [] => []
  | [b0] =>
    [b64_urlsafe_char (b0 / 4); b64_urlsafe_char ((b0 mod 4) * 16); 61; 61]
  | [b0; b1] =>
    [b64_urlsafe_char (b0 / 4); b64_urlsafe_char ((b0 mod 4) * 16 + b1 / 16);
     b64_urlsafe_char ((b1 mod 16) * 4); 61]
  | b0 :: b1 :: b2 :: rest =>
    b64_urlsafe_char (b0 / 4) ::
    b64_urlsafe_char ((b0 mod 4) * 16 + b1 / 16) ::
    b64_urlsafe_char ((b1 mod 16) * 4 + b2 / 64) ::
    b64_urlsafe_char (b2 mod 64) :: urlsafe_b64encode rest
  end.

(** [s.rstrip("=")] *)
Fixpoint rstrip_pad (s : pystr) : pystr :=
  match s with
  | [] => []
  | c :: r =>
    match rstrip_pad r with
    | [] => if c =? 61 then [] else [c]
    | r' => c :: r'
    end
  end.

(** The loop of [binascii.a2b_base64] in its default, non-strict mode.
    [quad_pos] counts the characters of the current group of four,
    [leftchar] holds the bits not yet written, [pads] counts the '=' seen
    since the last data character, [out] is the data written so far.
    Characters outside the alphabet are skipped; enough '=' after two or
    three data characters ends the decoding; a group left open at the end
    of the input is an error. *)
Fixpoint a2b_base64_loop (s : list Z) (quad_pos leftchar pads : Z)
    (out : list Z) : result (list Z) :=
  match s with
  | [] => if quad_pos =? 0 then Ok out else Raise BinasciiError
  | c :: rest =>
    if c =? 61 then
      if 2 <=? quad_pos then
        if 4 <=? quad_pos + (pads + 1) then Ok out
        else a2b_base64_loop rest quad_pos leftchar (pads + 1) out
      else a2b_base64_loop rest quad_pos leftchar pads out
    else
      match table_a2b_base64 c with
      | None => a2b_base64_loop rest quad_pos leftchar pads out
      | Some this_ch =>
        if quad_pos =? 0 then
          a2b_base64_loop rest 1 this_ch 0 out
        else if quad_pos =? 1 then
          a2b_base64_loop rest 2 (this_ch mod 16) 0
            (out ++ [leftchar * 4 + this_ch / 16])
        else if quad_pos =? 2 then
          a2b_base64_loop rest 3 (this_ch mod 4) 0
            (out ++ [leftchar * 16 + this_ch / 4])
        else
          a2b_base64_loop rest 0 0 0 (out ++ [leftchar * 64 + this_ch])
      end
  end.

Definition a2b_base64 (s : list Z) : result (list Z) :=
  a2b_base64_loop s 0 0 0 [].

(** [urlsafe_b64decode(s)] for a str [s]: the str must be ASCII
    ([s.encode('ascii')], else [ValueError]), '-' and '_' are translated
    to '+' and '/', and the result goes to [a2b_base64]. *)
Definition urlsafe_b64decode (s : pystr) : result (list Z) :=
  if forallb (fun c => (0 <=? c) && (c <? 128)) s
  then a2b_base64 (urlsafe_decode_translation <$> s)
  else Raise ValueError.

(** *** [int(x)] *)

Definition is_ascii (s : pystr) : bool :=
  forallb (fun c => (0 <=? c) && (c <? 128)) s.

Definition is_digit (c : Z) : bool := (48 <=? c) && (c <=? 57).

(** White space as [int] skips it around the number in an ASCII str
    ([Py_ISSPACE]): tab, line feed, vertical tab, form feed, carriage
    return and space.  The separators U+001C..U+001F, which [str.strip]
    removes, are not skipped. *)
Definition is_space (c : Z) : bool :=
  ((9 <=? c) && (c <=? 13)) || (c =? 32).

Fixpoint lstrip (s : pystr) : pystr :=
  match s with
  | c :: r => if is_space c then lstrip r else s
  | [] => []
  end.

Definition strip (s : pystr) : pystr := rev (lstrip (rev (lstrip s))).

(** Decimal digits, single underscores allowed between two digits.
    [after_digit] tells whether the previous character was a digit. *)
Fixpoint parse_digits (s : pystr) (acc : Z) (after_digit : bool) : option Z :=
  match s with
  | [] => if after_digit then Some acc else None
  | c :: r =>
    if is_digit c then parse_digits r (acc * 10 + (c - 48)) true
    else if (c =? 95) && after_digit then parse_digits r acc false
    else None
  end.

(** The default of [sys.get_int_max_str_digits()]: [int] refuses a str
    with more decimal digits (leading zeros count, underscores do
    not). *)
Definition int_max_str_digits : Z := 4300.

Definition count_digits (s : pystr) : Z :=
  Z.of_nat (length (List.filter is_digit s)).

(** [int(s)] for an ASCII str: white space around, an optional sign,
    then the digits, no more of them than the limit.  Every refusal is a
    [ValueError]. *)
Definition int_of_ascii (s : pystr) : option Z :=
  if int_max_str_digits <? count_digits s then None
  else
    match strip s with
    | 45 :: r => Z.opp <$> parse_digits r 0 false
    | 43 :: r => parse_digits r 0 false
    | r => parse_digits r 0 false
    end.

(** *** Calendar ([datetime.fromtimestamp], [strftime]) *)

(** The tables [_DAYS_IN_MONTH] and [_DAYS_BEFORE_MONTH] of [datetime]
    (index 0 holds the placeholder -1). *)
Definition _DAYS_IN_MONTH : list Z :=
  [-1; 31; 28; 31; 30; 31; 30; 31; 31; 30; 31; 30; 31].
Definition _DAYS_BEFORE_MONTH : list Z :=
  [-1; 0; 31; 59; 90; 120; 151; 181; 212; 243; 273; 304; 334].

Definition table_at (table : list Z) (i : Z) : Z :=
  nth (Z.to_nat i) table (-1).

(** [datetime._ord2ymd]: the proleptic Gregorian date (year, month, day)
    of an ordinal, where day 1 is 0001-01-01.  [n400], [n100], [n4] and
    [n1] count the whole cycles of 400, 100 and 4 years and the single
    years that precede the day. *)
Definition _ord2ymd (ordinal : Z) : Z * Z * Z :=
  let n := ordinal - 1 in
  let n400 := n / 146097 in
  let n := n mod 146097 in
  let year := n400 * 400 + 1 in
  let n100 := n / 36524 in
  let n := n mod 36524 in
  let n4 := n / 1461 in
  let n := n mod 1461 in
  let n1 := n / 365 in
  let n := n mod 365 in
  let year := year + (n100 * 100 + n4 * 4 + n1) in
  if (n1 =? 4) || (n100 =? 4) then (year - 1, 12, 31)
  else
    let leapyear := (n1 =? 3) && (negb (n4 =? 24) || (n100 =? 3)) in
    let month := Z.shiftr (n + 50) 5 in
    let preceding :=
      table_at _DAYS_BEFORE_MONTH month
      + (if (2 <? month) && leapyear then 1 else 0) in
    if n <? preceding then
      let month := month - 1 in
      let preceding :=
        preceding - (table_at _DAYS_IN_MONTH month
                     + (if (month =? 2) && leapyear then 1 else 0)) in
      (year, month, n - preceding + 1)
    else (year, month, n - preceding + 1).

(** The date of a day number counted from 1970-01-01, whose ordinal is
    719163. *)
Definition civil_from_days (days : Z) : Z * Z * Z :=
  _ord2ymd (days + 719163).

(** A broken-down time, as [time.struct_time]. *)
Record struct_time := {
  tm_year : Z; tm_mon : Z; tm_mday : Z;
  tm_hour : Z; tm_min : Z; tm_sec : Z
}.

(** Broken-down time of a count of seconds since 1970-01-01 00:00:00 on
    the local clock. *)
Definition civil_time (local_seconds : Z) : struct_time :=
  let '(y, m, d) := civil_from_days (local_seconds / 86400) in
  let sod := local_seconds mod 86400 in
  {| tm_year := y; tm_mon := m; tm_mday := d;
     tm_hour := sod / 3600; tm_min := (sod / 60) mod 60; tm_sec := sod mod 60 |}.

(** Zero-padded decimal fields of [strftime]. *)
Definition digits2 (n : Z) : pystr := [48 + n / 10; 48 + n mod 10].
Definition digits4 (n : Z) : pystr :=
  [48 + n / 1000; 48 + (n / 100) mod 10; 48 + (n / 10) mod 10; 48 + n mod 10].

(** The field %Y for a year in 1..9999, the years of a [datetime]: the
    C library writes the decimal digits of the year without leading
    zeros (glibc), so a year below 1000 takes fewer than four
    characters. *)
Definition year_digits (y : Z) : pystr :=
  if y <? 10 then [48 + y]
  else if y <? 100 then [48 + y / 10; 48 + y mod 10]
  else if y <? 1000 then [48 + y / 100; 48 + (y / 10) mod 10; 48 + y mod 10]
  else digits4 y.

(** [t.strftime("%Y-%m-%d %H:%M:%S")] *)
Definition strftime (t : struct_time) : pystr :=
  year_digits (tm_year t) ++ [45] ++ digits2 (tm_mon t) ++ [45]
  ++ digits2 (tm_mday t) ++ [32] ++ digits2 (tm_hour t) ++ [58]
  ++ digits2 (tm_min t) ++ [58] ++ digits2 (tm_sec t).

(** The years of a [datetime]: [MINYEAR] to [MAXYEAR]. *)
Definition MINYEAR : Z := 1.
Definition MAXYEAR : Z := 9999.

Definition year_in_range (tm : struct_time) : bool :=
  (MINYEAR <=? tm_year tm) && (tm_year tm <=? MAXYEAR).

(** [datetime.fromtimestamp] looks one day back for a repeated hour of
    the local clock. *)
Definition max_fold_seconds : Z := 24 * 3600.

(** ** The message normalizer: [AsyncGmailClient.parse_message] *)

(** The record built by [parse_message]: the dict with the seven keys of
    [GMAIL_FIELDS].  A field holds whatever object the code puts there. *)
Record MessageRecord := {
  messageId : json;
  threadId : json;
  messageTimestamp : json;
  labelIds : json;
  sender : json;
  subject : json;
  messageText : json
}.

Definition ascii_lower (c : Z) : Z :=
  if (65 <=? c) && (c <=? 90) then c + 32 else c.

Fixpoint is_prefix (p s : pystr) : bool :=
  match p, s with
  | [], _ => true
  | a :: p', b :: s' => (a =? b) && is_prefix p' s'
  | _ :: _, [] => false
  end.

(** [p in s] for two strs: [p] occurs in [s]. *)
Fixpoint contains_substr (p s : pystr) : bool :=
  is_prefix p s ||
  match s with
  | [] => false
  | _ :: s' => contains_substr p s'
  end.

(** [k in o] for a str [k]: a key of a dict, an element of a list, a
    substring of a str. *)
Definition py_contains (k : pystr) (o : json) : result bool :=
  match o with
  | JDict d => Ok (bool_decide (is_Some (d !! k)))
  | JList l => Ok (existsb (fun x => py_eq_str x k) l)
  | JStr s => Ok (contains_substr k s)
  | _ => Raise TypeError
  end.

(** The body of the two [try] blocks:
    [base64.urlsafe_b64decode(body_data + "===").decode('utf-8')]. *)
Definition decode_body_data (body_data : json) : result pystr :=
  s ← py_add_str body_data (str "===");
  bs ← urlsafe_b64decode s;
  bytes_decode_utf8 bs.

Section Normalizer.

(** What the running interpreter and host supply: [str.lower] and
    [int] on strs with non-ASCII characters (Unicode tables), and the
    offset in seconds of the local time zone from UTC at an instant. *)
Context (unicode_lower : pystr -> pystr)
        (unicode_int : pystr -> option Z)
        (utcoffset : Z -> Z).

(** [s.lower()] *)
Definition lower (s : pystr) : pystr :=
  if is_ascii s then ascii_lower <$> s else unicode_lower s.

(** [x.lower()]: only a str has the method. *)
Definition py_lower (x : json) : result pystr :=
  match x with
  | JStr s => Ok (lower s)
  | _ => Raise AttributeError
  end.

(** [int(x)] *)
Definition py_int (x : json) : result Z :=
  match x with
  | JInt n => Ok n
  | JBool b => Ok (if b then 1 else 0)
  | JStr s =>
    match (if is_ascii s then int_of_ascii s else unicode_int s) with
    | Some n => Ok n
    | None => Raise ValueError
    end
  | _ => Raise TypeError
  end.

(** The offset of the local clock from UTC at the instant [t], in
    seconds.  A zone keeps within one day of UTC; a value of [utcoffset]
    beyond that is read as the nearest bound. *)
Definition local_offset (t : Z) : Z :=
  Z.max (- 86400) (Z.min 86400 (utcoffset t)).

(** [time.localtime(t)] *)
Definition localtime (t : Z) : struct_time :=
  civil_time (t + local_offset t).

(** The local clock at the instant [t] as a count of seconds, which
    [datetime] only has for the years [MINYEAR]..[MAXYEAR]. *)
Definition local_seconds (t : Z) : result Z :=
  if year_in_range (localtime t) then Ok (t + local_offset t)
  else Raise RangeError.

(** [datetime.fromtimestamp(ms / 1000)] for an int [ms].  The quotient
    is a float that [fromtimestamp] rounds to the microsecond; for the
    instants of the years 1..9999 the float is within 2^-15 s of the
    quotient, so the whole seconds are the floor of the quotient, and
    [strftime] prints whole seconds only.  After the conversion itself,
    [fromtimestamp] converts the instant [max_fold_seconds] earlier
    ([probe1]) and, when the local clock was set back in between, the
    instant that much earlier ([probe2]), to find out whether the local
    time is the second of two equal ones; each conversion needs its
    local date in the years 1..9999.  The outcome of the search does not
    show in what [strftime] prints. *)
Definition fromtimestamp_ms (ms : Z) : result struct_time :=
  let t := ms / 1000 in
  result ← local_seconds t;
  probe1 ← local_seconds (t - max_fold_seconds);
  let trans := result - probe1 - max_fold_seconds in
  _ ← (if trans <? 0 then local_seconds (t + trans) else Ok result);
  Ok (localtime t).

(** The loop of [get_header_value] over the items of [headers]. *)
Fixpoint get_header_value_loop (headers : list json) (name : pystr)
    : result json :=
  match headers with
  | [] => Ok (JStr (str ""))
  | header :: rest =>
    n ← py_get header (str "name") (JStr (str ""));
    ln ← py_lower n;
    if bool_decide (ln = lower name)
    then py_get header (str "value") (JStr (str ""))
    else get_header_value_loop rest name
  end.

Definition get_header_value (headers : json) (name : pystr) : result json :=
  items ← py_iter headers;
  get_header_value_loop items name.

(** The loop over [payload["parts"]], with [text_parts] as built so
    far. *)
Fixpoint collect_text_parts (parts : list json) (text_parts : list pystr)
    : result (list pystr) :=
  match parts with
  | [] => Ok text_parts
  | part :: rest =>
    mime ← py_get part (str "mimeType") JNull;
    if py_eq_str mime (str "text/plain") then
      body ← py_get part (str "body") (JDict ∅);
      body_data ← py_get body (str "data") (JStr (str ""));
      if truthy body_data then
        match decode_body_data body_data with
        | Ok decoded => collect_text_parts rest (text_parts ++ [decoded])
        | Raise _ => collect_text_parts rest text_parts
        end
      else collect_text_parts rest text_parts
    else collect_text_parts rest text_parts
  end.

Definition extract_text_from_payload (payload : json) : result pystr :=
  if negb (truthy payload) then Ok (str "")
  else
    has_parts ← py_contains (str "parts") payload;
    if has_parts : bool then
      parts ← py_getitem payload (str "parts");
      items ← py_iter parts;
      text_parts ← collect_text_parts items [];
      Ok (join [10] text_parts)
    else
      mime ← py_get payload (str "mimeType") JNull;
      if py_eq_str mime (str "text/plain") then
        body ← py_get payload (str "body") (JDict ∅);
        body_data ← py_get body (str "data") (JStr (str ""));
        if truthy body_data
        then try_except (decode_body_data body_data) (Ok (str ""))
        else Ok (str "")
      else Ok (str "").

Definition parse_message (message_data : json) : result MessageRecord :=
  payload ← py_get message_data (str "payload") (JDict ∅);
  headers ← py_get payload (str "headers") (JList []);
  message_id ← py_get message_data (str "id") (JStr (str ""));
  thread_id ← py_get message_data (str "threadId") (JStr (str ""));
  internal_date ← py_get message_data (str "internalDate") JNull;
  timestamp ←
    (if truthy internal_date then
       v ← py_get message_data (str "internalDate") (JStr (str "0"));
       ms ← py_int v;
       tm ← fromtimestamp_ms ms;
       Ok (strftime tm)
     else Ok (str ""));
  label_ids ← py_get message_data (str "labelIds") (JList []);
  from ← get_header_value headers (str "From");
  subj ← get_header_value headers (str "Subject");
  text ←
    (p1 ← py_get message_data (str "payload") (JDict ∅);
     t1 ← extract_text_from_payload p1;
     if (500 <? length t1)%nat then
       p2 ← py_get message_data (str "payload") (JDict ∅);
       t2 ← extract_text_from_payload p2;
       Ok (take 500%nat t2 ++ str "...")
     else
       p3 ← py_get message_data (str "payload") (JDict ∅);
       extract_text_from_payload p3);
  Ok {| messageId := message_id;
        threadId := thread_id;
        messageTimestamp := JStr timestamp;
        labelIds := label_ids;
        sender := from;
        subject := subj;
        messageText := JStr text |}.

End Normalizer.

(** ** The API client and the orchestrator *)

(** The four GET requests of the client, by endpoint:
    [users/me/labels], [users/me/profile], [users/me/messages] with its
    [maxResults] parameter, and [users/me/messages/{message_id}]. *)
Inductive request :=
| GetLabels
| GetProfile
| GetMessages (max_results : Z)
| GetMessage (message_id : json).

(** An HTTP response: the status code and the body, [None] when the body
    is not a JSON document. *)
Record response := {
  status_code : Z;
  content : option json
}.

Record FetchResult := {
  labels : json;
  profile : json;
  emails : list MessageRecord
}.

(** [await asyncio.gather] over the list [tasks].  [sched] is the order in which the
    tasks finish, by index; an index out of range or already finished
    is ignored, and the tasks that [sched] leaves out finish afterwards
    in list order.  [settle] walks through the completions with the
    values of the tasks finished so far: the first exception met is
    propagated to the awaiting caller at once. *)
Fixpoint settle {A} (tasks : list (result A)) (sched : list nat)
    (slots : list (option A)) : result (list (option A)) :=
  match sched with
  | [] => Ok slots
  | i :: sched' =>
    match slots !! i, tasks !! i with
    | Some None, Some (Ok v) => settle tasks sched' (<[i := Some v]> slots)
    | Some None, Some (Raise e) => Raise e
    | _, _ => settle tasks sched' slots
    end
  end.

(** Once every task has finished, the values are listed in the order of
    the tasks. *)
Definition gather {A} (sched : list nat) (tasks : list (result A))
    : result (list A) :=
  match settle tasks (sched ++ seq 0 (length tasks))
          (replicate (length tasks) None) with
  | Ok slots => Ok (omap id slots)
  | Raise e => Raise e
  end.

Section Orchestrator.

Context (unicode_lower : pystr -> pystr)
        (unicode_int : pystr -> option Z)
        (utcoffset : Z -> Z).

(** The remote service behind [session.get]: the response to a
    request, or the exception of a failed transport. *)
Context (session_get : request -> result response).

(** [response.raise_for_status()] fails on every status outside
    200..299; [response.json()] fails on a body that is not JSON. *)
Definition _make_request (rq : request) : result json :=
  resp ← session_get rq;
  if (200 <=? status_code resp) && (status_code resp <=? 299) then
    match content resp with
    | Some data => Ok data
    | None => Raise JSONDecodeError
    end
  else Raise (HTTPStatusError (status_code resp)).

Definition get_labels : result json :=
  data ← _make_request GetLabels;
  py_get data (str "labels") (JList []).

Definition get_profile : result json :=
  _make_request GetProfile.

Definition get_message_list (max_results : Z) : result json :=
  data ← _make_request (GetMessages max_results);
  messages ← py_get data (str "messages") (JList []);
  items ← py_iter messages;
  ids ← mapM (fun msg => py_getitem msg (str "id")) items;
  Ok (JList ids).

Definition get_message_details (message_id : json) : result json :=
  _make_request (GetMessage message_id).

(** [sched1] and [sched2] are the completion orders of the requests of
    the first and of the second [gather]. *)
Definition fetch_gmail_data_async (sched1 sched2 : list nat)
    : result FetchResult :=
  phase1 ← gather sched1 [get_labels; get_profile; get_message_list 10];
  match phase1 with
  | [labels_v; profile_v; message_ids] =>
    ids ← py_iter message_ids;
    message_details ← gather sched2 (get_message_details <$> ids);
    parsed_messages ←
      mapM (parse_message unicode_lower unicode_int utcoffset)
           message_details;
    Ok {| labels := labels_v;
          profile := profile_v;
          emails := parsed_messages |}
  | _ => Raise ValueError
  end.

End Orchestrator.

(** ** The presentation: [format_output] *)

(** [len(x)] *)
Definition py_len (x : json) : result nat :=
  match x with
  | JStr s => Ok (length s)
  | JList l => Ok (length l)
  | JDict d => Ok (size d)
  | _ => Raise TypeError
  end.

(** [x[:n]]: the first [n] items of a str or of a list.  No other JSON
    value can be sliced (a dict raises [TypeError], or [KeyError] from
    Python 3.12 on, where slices are hashable). *)
Definition py_slice_to (n : nat) (x : json) : result json :=
  match x with
  | JStr s => Ok (JStr (take n s))
  | JList l => Ok (JList (take n l))
  | _ => Raise TypeError
  end.

(** [sep.join(x)]: [x] is iterated and every item must be a str. *)
Definition py_join (sep : pystr) (x : json) : result pystr :=
  items ← py_iter x;
  strs ← mapM (fun item => match item with
                           | JStr s => Ok s
                           | _ => Raise TypeError
                           end) items;
  Ok (join sep strs).

(** The two non-ASCII literals of the source file, as the code points
    that the file holds. *)
Definition bullet : pystr := [226; 8364; 162].
Definition envelope : pystr := [240; 376; 8220; 167].

Section Formatter.

(** [repr] of a list or of a dict, which the interpreter supplies. *)
Context (py_repr : json -> pystr).

(** The text that an f-string puts for a value: [format(x, "")], which
    is [str(x)] for the JSON types. *)
Definition py_format (x : json) : pystr :=
  match x with
  | JStr s => s
  | JInt n => str (pretty n)
  | JNull => str "None"
  | JBool true => str "True"
  | JBool false => str "False"
  | _ => py_repr x
  end.

(** The line of one label. *)
Definition format_label (label : json) : result pystr :=
  label_type ← py_get label (str "type") (JStr (str "user"));
  name ← py_getitem label (str "name");
  Ok (bullet ++ str " " ++ py_format name ++ str " (" ++ py_format label_type
      ++ str ")").

(** The ten entries that the loop over the emails appends for the email
    of rank [i]. *)
Definition format_email (i : Z) (email : MessageRecord)
    : result (list pystr) :=
  labels_text ←
    (if truthy (labelIds email) then py_join (str ", ") (labelIds email)
     else Ok (str "None"));
  preview ← py_slice_to 100 (messageText email);
  n ← py_len (messageText email);
  Ok [ [10] ++ envelope ++ str " EMAIL #" ++ py_format (JInt i);
       replicate 40 45;
       str "Message ID: " ++ py_format (messageId email);
       str "Thread ID: " ++ py_format (threadId email);
       str "Timestamp: " ++ py_format (messageTimestamp email);
       str "From: " ++ py_format (sender email);
       str "Subject: " ++ py_format (subject email);
       str "Labels: " ++ labels_text;
       str "Preview: " ++ py_format preview
         ++ (if (100 <? n)%nat then str "..." else str "");
       str "" ].

(** The loop [for i, email in enumerate(data["emails"], i)]. *)
Fixpoint format_emails (i : Z) (emails : list MessageRecord)
    : result (list pystr) :=
  match emails with
  | [] => Ok []
  | email :: rest =>
    entries ← format_email i email;
    more ← format_emails (i + 1) rest;
    Ok (entries ++ more)
  end.

(** The list [output] at the end of [format_output]. *)
Definition format_entries (data : FetchResult) : result (list pystr) :=
  email_address ← py_get (profile data) (str "emailAddress") (JStr (str "N/A"));
  messages_total ← py_get (profile data) (str "messagesTotal") (JStr (str "N/A"));
  threads_total ← py_get (profile data) (str "threadsTotal") (JStr (str "N/A"));
  history_id ← py_get (profile data) (str "historyId") (JStr (str "N/A"));
  label_items ← py_iter (labels data);
  label_entries ← mapM format_label label_items;
  email_entries ← format_emails 1 (emails data);
  Ok ([ replicate 60 61; str "USER PROFILE"; replicate 60 61;
        str "Email Address: " ++ py_format email_address;
        str "Messages Total: " ++ py_format messages_total;
        str "Threads Total: " ++ py_format threads_total;
        str "History ID: " ++ py_format history_id;
        str "" ]
      ++ [ replicate 60 61; str "LABELS"; replicate 60 61 ]
      ++ label_entries
      ++ [ str "" ]
      ++ [ replicate 60 61; str "LAST 10 EMAILS"; replicate 60 61 ]
      ++ email_entries).

Definition format_output (data : FetchResult) : result pystr :=
  entries ← format_entries data;
  Ok (join [10] entries).

End Formatter.

(** ** Notions used in the statements *)

Definition is_byte (b : Z) : Prop := 0 <= b < 256.

Definition is_str (v : json) : bool :=
  match v with JStr _ => true | _ => false end.
Definition is_list (v : json) : bool :=
  match v with JList _ => true | _ => false end.
Definition is_dict (v : json) : bool :=
  match v with JDict _ => true | _ => false end.

(** Every field of the record has the type that the data model gives
    it: a str, and a list for [labelIds]. *)
Definition record_typed (r : MessageRecord) : bool :=
  is_str (messageId r) && is_str (threadId r) && is_str (messageTimestamp r)
  && is_list (labelIds r) && is_str (sender r) && is_str (subject r)
  && is_str (messageText r).

(** A key is absent, or its value satisfies [P]. *)
Definition absent_or (P : json -> Prop) (o : option json) : Prop :=
  match o with
  | None => True
  | Some v => P v
  end.

(** The shape YYYY-MM-DD HH:MM:SS: nineteen characters, digits except
    for the two '-', the space and the two ':'. *)
Definition timestamp_shape (s : pystr) : Prop :=
  length s = 19%nat /\
  forall (i : nat) c, s !! i = Some c ->
    if bool_decide (i = 4 \/ i = 7)%nat then c = 45
    else if bool_decide (i = 10)%nat then c = 32
    else if bool_decide (i = 13 \/ i = 16)%nat then c = 58
    else 48 <= c <= 57.

(** The text that a part of a multipart payload contributes: the part
    declares text/plain and the data of its body is a non-empty str that
    decodes. *)
Definition part_text (part : json) : option pystr :=
  match part with
  | JDict d =>
    match d !! str "mimeType", d !! str "body" with
    | Some (JStr mime), Some (JDict body) =>
      match body !! str "data" with
      | Some (JStr (c :: s)) =>
        if bool_decide (mime = str "text/plain") then
          match urlsafe_b64decode ((c :: s) ++ str "===") with
          | Ok bs => utf8_decode bs
          | Raise _ => None
          end
        else None
      | _ => None
      end
    | _, _ => None
    end
  | _ => None
  end.

(** The same following the words of the specification, which decodes
    the body data of every text/plain part, the empty str included. *)
Definition spec_part_text (part : json) : option pystr :=
  match part with
  | JDict d =>
    match d !! str "mimeType", d !! str "body" with
    | Some (JStr mime), Some (JDict body) =>
      match body !! str "data" with
      | Some (JStr s) =>
        if bool_decide (mime = str "text/plain") then
          match urlsafe_b64decode (s ++ str "===") with
          | Ok bs => utf8_decode bs
          | Raise _ => None
          end
        else None
      | _ => None
      end
    | _, _ => None
    end
  | _ => None
  end.

Definition spec_multipart_text (parts : list json) : pystr :=
  join [10] (omap spec_part_text parts).

(** A part that the loop over the parts can process: an object whose
    body, if it declares text/plain and has one, is an object. *)
Definition part_ok (part : json) : Prop :=
  exists d, part = JDict d /\
    (d !! str "mimeType" = Some (JStr (str "text/plain")) ->
     absent_or (fun b => is_dict b = true) (d !! str "body")).

(** A text/plain part without body data: no body, or a body whose data
    is absent or the empty str. *)
Definition empty_text_part (part : json) : Prop :=
  exists d, part = JDict d /\
    d !! str "mimeType" = Some (JStr (str "text/plain")) /\
    absent_or (fun b => exists body, b = JDict body /\
                 absent_or (fun v => v = JStr []) (body !! str "data"))
              (d !! str "body").

(** A header whose name equals [name] once both are put in lower case,
    which is how [get_header_value] compares names. *)
Definition header_matches (unicode_lower : pystr -> pystr) (name : pystr)
    (header : json) : Prop :=
  exists hd n, header = JDict hd /\
    from_option id (JStr []) (hd !! str "name") = JStr n /\
    lower unicode_lower n = lower unicode_lower name.

(** The value of a header, the empty str when it carries none. *)
Definition header_value (header : json) : json :=
  match header with
  | JDict hd => from_option id (JStr []) (hd !! str "value")
  | _ => JStr []
  end.

(** [v] is the value of the first header of the list that matches
    [name], or the empty str when no header matches. *)
Definition first_header_value (unicode_lower : pystr -> pystr) (name : pystr)
    (headers : list json) (v : json) : Prop :=
  (exists pre h post,
     headers = pre ++ h :: post /\
     Forall (fun x => ~ header_matches unicode_lower name x) pre /\
     header_matches unicode_lower name h /\
     v = header_value h)
  \/ (Forall (fun x => ~ header_matches unicode_lower name x) headers /\
      v = JStr []).

(** ** Sample values for the examples *)

(** A host with its clock on UTC.  The examples hold no str outside
    ASCII, so the Unicode tables are not consulted. *)
Definition utc : Z -> Z := fun _ => 0.
Definition no_unicode_lower : pystr -> pystr := fun s => s.
Definition no_unicode_int : pystr -> option Z := fun _ => None.

(** A dict literal. *)
Definition dict (items : list (string * json)) : json :=
  JDict (list_to_map ((fun kv => (str kv.1, kv.2)) <$> items)).

(** [base64url(text)] without padding, for an ASCII literal. *)
Definition b64 (text : string) : json :=
  JStr (rstrip_pad (urlsafe_b64encode (str text))).

(** A part of a multipart payload with a content type and body data. *)
Definition part (mime : string) (data : json) : json :=
  dict [("mimeType", JStr (str mime)); ("body", dict [("data", data)])].

Definition multipart (parts : list json) : json :=
  dict [("mimeType", JStr (str "multipart/alternative"));
        ("parts", JList parts)].

Definition parts_A_html_B : list json :=
  [part "text/plain" (b64 "A"); part "text/html" (b64 "<p>A</p>");
   part "text/plain" (b64 "B")].

Definition parts_A_empty_B : list json :=
  [part "text/plain" (b64 "A"); part "text/plain" (JStr (str ""));
   part "text/plain" (b64 "B")].

(** A header as the service sends it: an object whose name and value,
    when present, are strs. *)
Definition header_ok (h : json) : Prop :=
  exists hd, h = JDict hd /\
    absent_or (fun v => is_str v = true) (hd !! str "name") /\
    absent_or (fun v => is_str v = true) (hd !! str "value").

(** A payload as the service sends it: an object whose headers, when
    present, are a list of headers, whose parts, when present, are a
    list of parts, and whose body, when the payload has no parts,
    declares text/plain and has a body, is an object. *)
Definition payload_ok (p : json) : Prop :=
  exists pd, p = JDict pd /\
    absent_or (fun h => exists hs, h = JList hs /\ Forall header_ok hs)
              (pd !! str "headers") /\
    absent_or (fun v => exists ps, v = JList ps /\ Forall part_ok ps)
              (pd !! str "parts") /\
    (pd !! str "parts" = None ->
     pd !! str "mimeType" = Some (JStr (str "text/plain")) ->
     absent_or (fun b => is_dict b = true) (pd !! str "body")).

(** The instants that every zone shows with a date in the years
    1..9999, also one day and up to three days earlier, where
    [datetime.fromtimestamp] looks: from 0001-01-04 00:00:00 to
    9999-12-30 23:59:59 UTC, in seconds from 1970-01-01 00:00:00 UTC. *)
Definition first_safe_instant : Z := -62135337600.
Definition last_safe_instant : Z := 253402214399.

(** An internal date that [parse_message] can print on every host: a
    false value (which counts as absent), or a value that [int] accepts
    as the milliseconds of an instant between [first_safe_instant] and
    [last_safe_instant]. *)
Definition timestamp_ok (unicode_int : pystr -> option Z) (v : json) : Prop :=
  truthy v = false \/
  exists ms, py_int unicode_int v = Ok ms /\
    first_safe_instant <= ms / 1000 <= last_safe_instant.

(** A message resource whose fields, when present, have the types of
    the service's schema. *)
Definition message_ok (unicode_int : pystr -> option Z) (m : json) : Prop :=
  exists d, m = JDict d /\
    absent_or (fun v => is_str v = true) (d !! str "id") /\
    absent_or (fun v => is_str v = true) (d !! str "threadId") /\
    absent_or (timestamp_ok unicode_int) (d !! str "internalDate") /\
    absent_or (fun v => is_list v = true) (d !! str "labelIds") /\
    absent_or payload_ok (d !! str "payload").

(** The message of the first scenario of the specification. *)
Definition complete_message : json :=
  dict [("id", JStr (str "m1")); ("threadId", JStr (str "t1"));
        ("internalDate", JStr (str "1672531200000"));
        ("labelIds", JList [JStr (str "INBOX")]);
        ("payload",
         dict [("mimeType", JStr (str "text/plain"));
               ("body", dict [("data", b64 "hi")]);
               ("headers",
                JList [dict [("name", JStr (str "From"));
                             ("value", JStr (str "a@b.com"))];
                       dict [("name", JStr (str "Subject"));
                             ("value", JStr (str "Hi"))]])])].

Definition complete_record : MessageRecord :=
  {| messageId := JStr (str "m1");
     threadId := JStr (str "t1");
     messageTimestamp := JStr (str "2023-01-01 00:00:00");
     labelIds := JList [JStr (str "INBOX")];
     sender := JStr (str "a@b.com");
     subject := JStr (str "Hi");
     messageText := JStr (str "hi") |}.

(** A message whose body is [n] times the letter 'a'. *)
Definition message_with_body (n : nat) : json :=
  dict [("id", JStr (str "m1"));
        ("payload",
         dict [("mimeType", JStr (str "text/plain"));
               ("body",
                dict [("data",
                       JStr (rstrip_pad (urlsafe_b64encode (replicate n 97))))])])].

(** The message of the second scenario: no internal date, no labels, no
    Subject header, an HTML payload without body. *)
Definition incomplete_message : json :=
  dict [("id", JStr (str "msg_incomplete_98765"));
        ("threadId", JStr (str "thread_incomplete_54321"));
        ("payload",
         dict [("headers",
                JList [dict [("name", JStr (str "From"));
                             ("value", JStr (str "incomplete.sender@example.com"))];
                       dict [("name", JStr (str "Date"));
                             ("value", JStr (str "Mon, 2 Jan 2023 12:00:00 +0000"))]]);
               ("mimeType", JStr (str "text/html"))])].

(** A successful response with a JSON body. *)
Definition json_response (data : json) : result response :=
  Ok {| status_code := 200; content := Some data |}.

(** A mailbox with the three messages "m1", "m2" and "m3"; [missing]
    tells the messages whose detail request is answered by 404. *)
Definition mailbox (missing : json -> bool) (rq : request) : result response :=
  match rq with
  | GetLabels =>
    json_response
      (dict [("labels", JList [dict [("id", JStr (str "INBOX"));
                                     ("name", JStr (str "INBOX"));
                                     ("type", JStr (str "system"))]])])
  | GetProfile =>
    json_response (dict [("emailAddress", JStr (str "a@b.com"))])
  | GetMessages _ =>
    json_response
      (dict [("messages", JList [dict [("id", JStr (str "m1"))];
                                 dict [("id", JStr (str "m2"))];
                                 dict [("id", JStr (str "m3"))]])])
  | GetMessage message_id =>
    if missing message_id then Ok {| status_code := 404; content := None |}
    else json_response (dict [("id", message_id)])
  end.

Definition mailbox_complete : request -> result response :=
  mailbox (fun _ => false).
Definition mailbox_without_m2 : request -> result response :=
  mailbox (fun message_id => py_eq_str message_id (str "m2")).

(** An empty mailbox: the list response carries no "messages" key. *)
Definition empty_mailbox (rq : request) : result response :=
  match rq with
  | GetMessages _ => json_response (dict [("resultSizeEstimate", JInt 0)])
  | _ => mailbox_complete rq
  end.

(** A list response whose second message has no id. *)
Definition mailbox_missing_id (rq : request) : result response :=
  match rq with
  | GetMessages _ =>
    json_response
      (dict [("messages", JList [dict [("id", JStr (str "m1"))];
                                 dict [("threadId", JStr (str "t2"))]])])
  | _ => mailbox_complete rq
  end.

(** A service that answers the label request by 500 and the profile
    request by 401. *)
Definition mailbox_failing (rq : request) : result response :=
  match rq with
  | GetLabels => Ok {| status_code := 500; content := None |}
  | GetProfile =>
    Ok {| status_code := 401;
          content := Some (dict [("error", JStr (str "unauthorized"))]) |}
  | _ => mailbox_complete rq
  end.

(** A service whose message "m2" has a null payload. *)
Definition mailbox_null_payload (rq : request) : result response :=
  match rq with
  | GetMessage message_id =>
    if py_eq_str message_id (str "m2")
    then json_response (dict [("id", message_id); ("payload", JNull)])
    else mailbox_complete rq
  | _ => mailbox_complete rq
  end.

(** The record of a message that carries its id only. *)
Definition id_record (message_id : string) : MessageRecord :=
  {| messageId := JStr (str message_id);
     threadId := JStr [];
     messageTimestamp := JStr [];
     labelIds := JList [];
     sender := JStr [];
     subject := JStr [];
     messageText := JStr [] |}.

(** An email that the loop can print: its labelIds are a false value or
    a list of strs, and its messageText is a str. *)
Definition printable_email (email : MessageRecord) : Prop :=
  (truthy (labelIds email) = false \/
   exists ids, labelIds email = JList (JStr <$> ids)) /\
  is_str (messageText email) = true.

(** A result with one label and two emails, and a result whose label
    has no name.  The examples print no list and no dict, so [repr] is
    not consulted. *)
Definition no_repr : json -> pystr := fun _ => [].

Definition sample_result : FetchResult :=
  {| labels := JList [dict [("id", JStr (str "INBOX"));
                            ("name", JStr (str "INBOX"));
                            ("type", JStr (str "system"))]];
     profile := dict [("emailAddress", JStr (str "a@b.com"));
                      ("messagesTotal", JInt 12)];
     emails := [complete_record; id_record "m2"] |}.

Definition result_with_unnamed_label : FetchResult :=
  {| labels := JList [dict [("id", JStr (str "Label_1"))]];
     profile := dict [("emailAddress", JStr (str "a@b.com"))];
     emails := [] |}.

(** A message whose labelIds, when present, are a list of strs. *)
Definition label_ids_are_strs (message : json) : Prop :=
  forall d v, message = JDict d -> d !! str "labelIds" = Some v ->
              exists ids, v = JList (JStr <$> ids).

(** The fixture [complete_message_payload] of the tests, whose body
    data keeps its padding, and the text that the test expects. *)
Definition test_message_text : pystr :=
  str "Hello, this is a test email with complete information including sender, subject, timestamp, and labels.".

Definition complete_message_payload : json :=
  dict [("id", JStr (str "msg_complete_12345"));
        ("threadId", JStr (str "thread_complete_67890"));
        ("internalDate", JStr (str "1672531200000"));
        ("labelIds", JList [JStr (str "INBOX"); JStr (str "IMPORTANT");
                            JStr (str "CATEGORY_PERSONAL")]);
        ("payload",
         dict [("headers",
                JList [dict [("name", JStr (str "From"));
                             ("value", JStr (str "john.doe@example.com"))];
                       dict [("name", JStr (str "To"));
                             ("value", JStr (str "jane.smith@example.com"))];
                       dict [("name", JStr (str "Subject"));
                             ("value", JStr (str "Complete Test Email Subject"))];
                       dict [("name", JStr (str "Date"));
                             ("value", JStr (str "Sun, 1 Jan 2023 00:00:00 +0000"))]]);
               ("mimeType", JStr (str "text/plain"));
               ("body",
                dict [("data", JStr (urlsafe_b64encode test_message_text))])])].

(** The values stored by [settle] so far are those of the tasks. *)
Definition slots_agree {A} (tasks : list (result A))
    (slots : list (option A)) : Prop :=
  length slots = length tasks /\
  forall i v, slots !! i = Some (Some v) -> tasks !! i = Some (Ok v).

End Gmail.
Export Gmail.

(** * Properties *)

(** ** Proof tools *)

(** Case analysis on the integer comparisons of the goal. *)
Ltac zcases :=
  repeat (cbn [andb orb negb];
    match goal with
    | |- context [?a <? ?b] => destruct (Z.ltb_spec a b)
    | |- context [?a <=? ?b] => destruct (Z.leb_spec a b)
    | |- context [?a =? ?b] => destruct (Z.eqb_spec a b)
    end); cbn [andb orb negb].

Ltac zdiv := Z.to_euclidean_division_equations; lia.

(** [zcases] that drops the impossible branches as it goes. *)
Ltac zprune :=
  repeat (cbn [andb orb negb] in *;
    match goal with
    | |- context [?a <? ?b] => destruct (Z.ltb_spec a b); try lia
    | |- context [?a <=? ?b] => destruct (Z.leb_spec a b); try lia
    | |- context [?a =? ?b] => destruct (Z.eqb_spec a b); try lia
    end); cbn [andb orb negb] in *.


Lemma result_bind_Ok {A B} (m : result A) (f : A -> result B) b :
  m ≫= f = Ok b <-> exists a, m = Ok a /\ f a = Ok b.
Proof.
  destruct m as [a|e]; simpl; split.
  - eauto.
  - by intros (a' & [= ->] & ?).
  - done.
  - by intros (a' & ? & ?).
Qed.

Lemma list_ind3 {A} (P : list A -> Prop) :
  P [] -> (forall a, P [a]) -> (forall a b, P [a; b]) ->
  (forall a b c l, P l -> P (a :: b :: c :: l)) ->
  forall l, P l.
Proof.
  intros H0 H1 H2 H3.
  fix IH 1. intros [|a [|b [|c l]]]; [apply H0 | apply H1 | apply H2 | apply H3, IH].
Qed.

(** *** Base64 *)

Lemma table_of_char v :
  0 <= v < 64 ->
  table_a2b_base64 (urlsafe_decode_translation (b64_urlsafe_char v)) = Some v.
Proof.
  intros Hv. unfold b64_urlsafe_char. zcases;
    unfold urlsafe_decode_translation; zcases;
    unfold table_a2b_base64; zcases; try lia; f_equal; lia.
Qed.

Lemma char_not_pad v :
  0 <= v < 64 ->
  (urlsafe_decode_translation (b64_urlsafe_char v) =? 61) = false.
Proof.
  intros Hv. apply Z.eqb_neq. unfold b64_urlsafe_char. zcases;
    unfold urlsafe_decode_translation; zcases; lia.
Qed.

Lemma char_ne_pad v : 0 <= v < 64 -> b64_urlsafe_char v <> 61.
Proof. intros Hv. unfold b64_urlsafe_char. zcases; lia. Qed.

Lemma char_ascii v : 0 <= v < 64 -> 0 <= b64_urlsafe_char v < 128.
Proof. intros Hv. unfold b64_urlsafe_char. zcases; lia. Qed.

Lemma rstrip_pad_cons c r : c <> 61 -> rstrip_pad (c :: r) = c :: rstrip_pad r.
Proof.
  intros Hc. simpl. destruct (rstrip_pad r); [|done].
  destruct (Z.eqb_spec c 61); [lia | done].
Qed.

(** The string that [urlsafe_b64encode] gives once its padding is removed,
    computed group by group. *)
Lemma rstrip_pad_encode_group b0 b1 b2 rest :
  is_byte b0 -> is_byte b1 -> is_byte b2 ->
  rstrip_pad (urlsafe_b64encode (b0 :: b1 :: b2 :: rest)) =
  b64_urlsafe_char (b0 / 4) ::
  b64_urlsafe_char ((b0 mod 4) * 16 + b1 / 16) ::
  b64_urlsafe_char ((b1 mod 16) * 4 + b2 / 64) ::
  b64_urlsafe_char (b2 mod 64) :: rstrip_pad (urlsafe_b64encode rest).
Proof.
  unfold is_byte. intros H0 H1 H2.
  cbn [urlsafe_b64encode].
  rewrite !rstrip_pad_cons; [done | apply char_ne_pad; zdiv ..].
Qed.

(** One full group of four characters gives back its three octets and
    leaves the decoder at the start of a group. *)
Lemma a2b_loop_group b0 b1 b2 s leftchar pads out :
  is_byte b0 -> is_byte b1 -> is_byte b2 ->
  a2b_base64_loop
    (urlsafe_decode_translation <$>
       (b64_urlsafe_char (b0 / 4) ::
        b64_urlsafe_char ((b0 mod 4) * 16 + b1 / 16) ::
        b64_urlsafe_char ((b1 mod 16) * 4 + b2 / 64) ::
        b64_urlsafe_char (b2 mod 64) :: s))
    0 leftchar pads out =
  a2b_base64_loop (urlsafe_decode_translation <$> s) 0 0 0
    (out ++ [b0; b1; b2]).
Proof.
  unfold is_byte. intros H0 H1 H2.
  rewrite !fmap_cons. cbn [a2b_base64_loop].
  rewrite !char_not_pad, !table_of_char by zdiv.
  cbn [Z.eqb Pos.eqb].
  rewrite <- !app_assoc. cbn [app].
  do 2 f_equal. f_equal; [zdiv|]. f_equal; [zdiv|]. f_equal. zdiv.
Qed.

Lemma a2b_loop_encode bs : forall out,
  Forall is_byte bs ->
  a2b_base64_loop
    (urlsafe_decode_translation <$>
       (rstrip_pad (urlsafe_b64encode bs) ++ str "==="))
    0 0 0 out = Ok (out ++ bs).
Proof.
  induction bs as [|b0|b0 b1|b0 b1 b2 rest IH] using list_ind3; intros out Hbs.
  - simpl. by rewrite app_nil_r.
  - apply Forall_cons_1 in Hbs as [H0 _]. unfold is_byte in H0.
    cbn [urlsafe_b64encode].
    rewrite !rstrip_pad_cons by (apply char_ne_pad; zdiv).
    change (rstrip_pad [61; 61]) with (@nil Z). 
    cbn [app fmap list_fmap a2b_base64_loop].
    rewrite !char_not_pad, !table_of_char by zdiv.
    simpl. do 3 f_equal. zdiv.
  - apply Forall_cons_1 in Hbs as [H0 Hbs].
    apply Forall_cons_1 in Hbs as [H1 _]. unfold is_byte in H0, H1.
    cbn [urlsafe_b64encode].
    rewrite !rstrip_pad_cons by (apply char_ne_pad; zdiv).
    change (rstrip_pad [61]) with (@nil Z). 
    cbn [app fmap list_fmap a2b_base64_loop].
    rewrite !char_not_pad, !table_of_char by zdiv.
    simpl. rewrite <- app_assoc. simpl. do 3 f_equal; [| f_equal]; zdiv.
  - apply Forall_cons_1 in Hbs as [H0 Hbs].
    apply Forall_cons_1 in Hbs as [H1 Hbs].
    apply Forall_cons_1 in Hbs as [H2 Hbs].
    rewrite rstrip_pad_encode_group by done.
    rewrite <- !app_comm_cons, a2b_loop_group by done.
    rewrite IH by done. by rewrite <- app_assoc.
Qed.

Lemma rstrip_pad_Forall (P : Z -> Prop) s :
  Forall P s -> Forall P (rstrip_pad s).
Proof.
  induction 1 as [|c r Hc Hr IH]; [done|].
  simpl. destruct (rstrip_pad r); [|by constructor].
  destruct (c =? 61); by repeat constructor.
Qed.

Lemma urlsafe_b64encode_ascii bs :
  Forall is_byte bs ->
  Forall (fun c => 0 <= c < 128) (urlsafe_b64encode bs).
Proof.
  unfold is_byte.
  induction bs as [|b0|b0 b1|b0 b1 b2 rest IH] using list_ind3; intros Hbs;
    repeat match goal with
    | H : Forall _ (_ :: _) |- _ => apply Forall_cons_1 in H as [? H]
    end; cbn [urlsafe_b64encode];
    repeat (apply Forall_cons; split; [first [lia | apply char_ascii; zdiv]|]);
    auto.
Qed.

Lemma is_ascii_Forall s :
  is_ascii s = true <-> Forall (fun c => 0 <= c < 128) s.
Proof.
  unfold is_ascii. rewrite forallb_forall, Forall_forall.
  split; intros H c Hc.
  - apply list_elem_of_In, H in Hc. lia.
  - apply list_elem_of_In, H in Hc. lia.
Qed.

Lemma rstrip_pad_encode_nil bs :
  Forall is_byte bs -> rstrip_pad (urlsafe_b64encode bs) = [] -> bs = [].
Proof.
  destruct bs as [|b0 [|b1 [|b2 rest]]]; [done|..]; intros Hbs;
    repeat match goal with
    | H : Forall _ (_ :: _) |- _ => apply Forall_cons_1 in H as [? H]
    end; unfold is_byte in *; cbn [urlsafe_b64encode];
    rewrite rstrip_pad_cons by (apply char_ne_pad; zdiv); done.
Qed.

(** *** UTF-8 *)

Lemma utf8_encode_cp_bytes c bs :
  utf8_encode_cp c = Some bs -> Forall is_byte bs.
Proof.
  unfold utf8_encode_cp, is_byte. zcases; intros [= <-];
    repeat (apply Forall_cons; split; [zdiv|]); done.
Qed.

Lemma utf8_encode_bytes s bs :
  utf8_encode s = Some bs -> Forall is_byte bs.
Proof.
  revert bs. induction s as [|c r IH]; intros bs; simpl.
  - by intros [= <-].
  - destruct (utf8_encode_cp c) as [cbs|] eqn:Hc; [|done].
    destruct (utf8_encode r) as [rs|]; [|done]. intros [= <-].
    apply Forall_app; split; [by eapply utf8_encode_cp_bytes | by apply IH].
Qed.

Lemma split_digits64 c :
  0 <= c ->
  exists q1 q2 q3 q4,
    0 <= q1 /\ 0 <= q2 < 64 /\ 0 <= q3 < 64 /\ 0 <= q4 < 64 /\
    c = q1 * 262144 + q2 * 4096 + q3 * 64 + q4 /\
    c mod 64 = q4 /\ (c / 64) mod 64 = q3 /\ (c / 4096) mod 64 = q2 /\
    c / 64 = q1 * 4096 + q2 * 64 + q3 /\
    c / 4096 = q1 * 64 + q2 /\ c / 262144 = q1.
Proof.
  intros Hc.
  exists (c / 262144), ((c / 4096) mod 64), ((c / 64) mod 64), (c mod 64).
  assert (c / 4096 = c / 64 / 64) as H1 by (rewrite Z.div_div by lia; reflexivity).
  assert (c / 262144 = c / 4096 / 64) as H2 by (rewrite Z.div_div by lia; reflexivity).
  pose proof (Z.div_mod c 64 ltac:(lia)).
  pose proof (Z.div_mod (c / 64) 64 ltac:(lia)).
  pose proof (Z.div_mod (c / 4096) 64 ltac:(lia)).
  pose proof (Z.mod_pos_bound c 64 ltac:(lia)).
  pose proof (Z.mod_pos_bound (c / 64) 64 ltac:(lia)).
  pose proof (Z.mod_pos_bound (c / 4096) 64 ltac:(lia)).
  assert (0 <= c / 262144) by (apply Z.div_pos; lia).
  rewrite <- H1 in *. rewrite <- H2 in *.
  repeat split; lia.
Qed.

Lemma utf8_decode_encode_cp c cbs rest :
  utf8_encode_cp c = Some cbs ->
  utf8_decode (cbs ++ rest) = cons c <$> utf8_decode rest.
Proof.
  unfold utf8_encode_cp.
  destruct (Z.ltb_spec c 0) as [|Hc0]; [done|].
  destruct (split_digits64 c Hc0)
    as (q1 & q2 & q3 & q4 & ? & ? & ? & ? & Hc & -> & -> & -> & H64 & H4096 & ->).
  zprune; intros [= <-]; cbn [app utf8_decode].
  - zprune. done.
  - rewrite H64. unfold is_continuation. zprune. do 2 f_equal. lia.
  - rewrite H4096. unfold is_continuation. zprune. do 2 f_equal. lia.
  - rewrite H4096. unfold is_continuation. zprune. do 2 f_equal. lia.
  - unfold is_continuation. zprune. do 2 f_equal. lia.
Qed.

Lemma utf8_decode_encode s bs :
  utf8_encode s = Some bs -> utf8_decode bs = Some s.
Proof.
  revert bs. induction s as [|c r IH]; intros bs; simpl.
  - by intros [= <-].
  - destruct (utf8_encode_cp c) as [cbs|] eqn:Hc; [|done].
    destruct (utf8_encode r) as [rs|]; [|done]. intros [= <-].
    rewrite (utf8_decode_encode_cp _ _ _ Hc), (IH rs); done.
Qed.

(** ** The text of a payload *)

Lemma truthy_dict_lookup (d : gmap (list Z) json) k v :
  d !! k = Some v -> truthy (JDict d) = true.
Proof.
  intros Hk. simpl. destruct (map_to_list d) eqn:Hd; [|done].
  apply map_to_list_empty_iff in Hd. subst d. by rewrite lookup_empty in Hk.
Qed.

(** Evaluation of the monadic steps and of the accessors on objects
    whose outer constructor is known. *)
Tactic Notation "rsimpl" :=
  cbn [mbind result_bind mret result_ret from_option id py_get py_getitem
       py_eq_str py_add_str py_contains try_except truthy negb option_list
       absent_or is_dict is_str is_list].
Tactic Notation "rsimpl" "in" hyp(H) :=
  cbn [mbind result_bind mret result_ret from_option id py_get py_getitem
       py_eq_str py_add_str py_contains try_except truthy negb option_list
       absent_or is_dict is_str is_list] in H.

(** One round of the loop over the parts. *)
Lemma collect_text_parts_cons_ok part rest acc :
  part_ok part ->
  collect_text_parts (part :: rest) acc =
  collect_text_parts rest (acc ++ option_list (part_text part)).
Proof.
  intros (d & -> & Hbody). cbn [collect_text_parts part_text]. rsimpl.
  destruct (d !! str "mimeType") as [mime|] eqn:Hmime; rsimpl;
    [|by rewrite app_nil_r].
  destruct mime as [| | |mime| |]; rsimpl; try by rewrite app_nil_r.
  case_bool_decide as Hm; [subst mime|].
  { specialize (Hbody eq_refl).
    destruct (d !! str "body") as [b|]; rsimpl.
    2: { rewrite lookup_empty. rsimpl. by rewrite app_nil_r. }
    destruct b as [| | | | |body]; try done. rsimpl.
    destruct (body !! str "data") as [[| | |[|c s]| |]|]; rsimpl;
      try by rewrite app_nil_r.
    - by destruct b; rewrite app_nil_r.
    - destruct (n =? 0); rsimpl; by rewrite app_nil_r.
    - unfold decode_body_data. rsimpl.
      destruct (urlsafe_b64decode _) as [bs|]; rsimpl; [|by rewrite app_nil_r].
      unfold bytes_decode_utf8. destruct (utf8_decode bs); rsimpl; [done|].
      by rewrite app_nil_r.
    - destruct l; by rewrite app_nil_r.
    - destruct (map_to_list d0); by rewrite app_nil_r. }
  destruct (d !! str "body") as [[]|]; try by rewrite app_nil_r.
  destruct (_ !! str "data") as [[| | |[]| |]|]; by rewrite app_nil_r.
Qed.

Lemma collect_text_parts_cons_Ok part rest acc res :
  collect_text_parts (part :: rest) acc = Ok res -> part_ok part.
Proof.
  cbn [collect_text_parts]. destruct part as [| | | | |d]; try done.
  intros H. exists d. split; [done|]. intros Hmime.
  rsimpl in H. rewrite Hmime in H. rsimpl in H.
  rewrite bool_decide_eq_true_2 in H by done.
  destruct (d !! str "body") as [b|]; [|done]. rsimpl in H. rsimpl.
  by destruct b.
Qed.

Lemma collect_text_parts_spec parts : forall acc res,
  collect_text_parts parts acc = Ok res <->
  Forall part_ok parts /\ res = acc ++ omap part_text parts.
Proof.
  induction parts as [|part rest IH]; intros acc res.
  - cbn. rewrite app_nil_r. split; [by intros [= ->] | by intros [_ ->]].
  - split.
    + intros H. pose proof (collect_text_parts_cons_Ok _ _ _ _ H) as Hok.
      rewrite collect_text_parts_cons_ok in H by done.
      apply IH in H as [Hrest ->]. split; [by constructor|].
      rewrite <- app_assoc. cbn [omap list_omap].
      by destruct (part_text part).
    + intros [Hall ->]. apply Forall_cons_1 in Hall as [Hok Hrest].
      rewrite collect_text_parts_cons_ok by done. apply IH. split; [done|].
      rewrite <- app_assoc. cbn [omap list_omap].
      by destruct (part_text part).
Qed.

(** With a "parts" key the payload is read through its parts only. *)
Lemma extract_text_multipart d v :
  d !! str "parts" = Some v ->
  extract_text_from_payload (JDict d) =
  (items ← py_iter v;
   text_parts ← collect_text_parts items [];
   Ok (join [10] text_parts)).
Proof.
  intros Hv. unfold extract_text_from_payload.
  rewrite (truthy_dict_lookup _ _ _ Hv). rsimpl.
  rewrite Hv. rewrite bool_decide_eq_true_2 by eauto. done.
Qed.

Lemma extract_text_simple d :
  d !! str "parts" = None ->
  extract_text_from_payload (JDict d) =
  if truthy (JDict d) then
    if py_eq_str (from_option id JNull (d !! str "mimeType")) (str "text/plain")
    then
      body ← py_get (from_option id (JDict ∅) (d !! str "body")) (str "data")
               (JStr (str ""));
      if truthy body then try_except (decode_body_data body) (Ok (str ""))
      else Ok (str "")
    else Ok (str "")
  else Ok (str "").
Proof.
  intros Hv. unfold extract_text_from_payload.
  destruct (truthy (JDict d)); [|done]. rsimpl.
  rewrite bool_decide_eq_false_2 by (rewrite Hv; by intros [? ?]). done.
Qed.

Section NormalizerFacts.

Context (unicode_lower : pystr -> pystr)
        (unicode_int : pystr -> option Z)
        (utcoffset : Z -> Z).

Local Abbreviation parse_message := (parse_message unicode_lower unicode_int utcoffset).
Local Abbreviation get_header_value := (get_header_value unicode_lower).
Local Abbreviation py_int := (py_int unicode_int).
Local Abbreviation fromtimestamp_ms := (fromtimestamp_ms utcoffset).

(** What a successful call of [parse_message] amounts to. *)
Lemma parse_message_Ok m r :
  parse_message m = Ok r <->
  exists d pd ts from subj text,
    m = JDict d /\
    from_option id (JDict ∅) (d !! str "payload") = JDict pd /\
    (let v := from_option id JNull (d !! str "internalDate") in
     if truthy v
     then ms ← py_int v; tm ← fromtimestamp_ms ms; Ok (strftime tm)
     else Ok []) = Ok ts /\
    get_header_value (from_option id (JList []) (pd !! str "headers"))
      (str "From") = Ok from /\
    get_header_value (from_option id (JList []) (pd !! str "headers"))
      (str "Subject") = Ok subj /\
    extract_text_from_payload (JDict pd) = Ok text /\
    r = {| messageId := from_option id (JStr []) (d !! str "id");
           threadId := from_option id (JStr []) (d !! str "threadId");
           messageTimestamp := JStr ts;
           labelIds := from_option id (JList []) (d !! str "labelIds");
           sender := from;
           subject := subj;
           messageText :=
             JStr (if (500 <? length text)%nat
                   then take 500 text ++ str "..." else text) |}.
Proof.
  assert (forall d : gmap (list Z) json,
    (if truthy (from_option id JNull (d !! str "internalDate"))
     then ms ← py_int (from_option id (JStr (str "0")) (d !! str "internalDate"));
          tm ← fromtimestamp_ms ms; Ok (strftime tm)
     else Ok (str "")) =
    (if truthy (from_option id JNull (d !! str "internalDate"))
     then ms ← py_int (from_option id JNull (d !! str "internalDate"));
          tm ← fromtimestamp_ms ms; Ok (strftime tm)
     else Ok [])) as Hdate.
  { intros d. destruct (d !! str "internalDate"); done. }
  unfold Gmail.parse_message. split.
  - destruct m as [| | | | |d]; rsimpl; try done.
    destruct (from_option id (JDict ∅) (d !! str "payload"))
      as [| | | | |pd] eqn:Hpd; rsimpl; try done.
    rewrite Hdate.
    destruct (if truthy _ then _ else _) as [ts|e] eqn:Hts; rsimpl; [|done].
    destruct (get_header_value _ (str "From")) as [from|e] eqn:Hfrom;
      rsimpl; [|done].
    destruct (get_header_value _ (str "Subject")) as [subj|e] eqn:Hsubj;
      rsimpl; [|done].
    destruct (extract_text_from_payload (JDict pd)) as [text|e] eqn:Htext;
      rsimpl; [|done].
    intros H. exists d, pd, ts, from, subj, text.
    repeat (split; [done|]).
    destruct (500 <? length text)%nat; rsimpl; by injection H as <-.
  - intros (d & pd & ts & from & subj & text & -> & Hpd & Hts & Hfrom
            & Hsubj & Htext & ->).
    rsimpl. rewrite Hpd. rsimpl. rewrite Hdate. cbv zeta in Hts.
    rewrite Hts. rsimpl. rewrite Hfrom. rsimpl. rewrite Hsubj. rsimpl.
    rewrite Htext. rsimpl. by destruct (500 <? length text)%nat.
Qed.

End NormalizerFacts.

(** ** The multipart branch *)

Lemma collect_text_parts_ext a rest rest' acc :
  (forall acc', collect_text_parts rest acc' = collect_text_parts rest' acc') ->
  collect_text_parts (a :: rest) acc = collect_text_parts (a :: rest') acc.
Proof.
  intros H. cbn [collect_text_parts].
  destruct (py_get a (str "mimeType") JNull) as [mime|]; rsimpl; [|done].
  destruct (py_eq_str _ _); [|apply H].
  destruct (py_get a (str "body") _) as [body|]; rsimpl; [|done].
  destruct (py_get body _ _); rsimpl; [|done].
  destruct (truthy _); [|apply H].
  destruct (decode_body_data _); apply H.
Qed.

Lemma empty_text_part_ok p :
  empty_text_part p -> part_ok p /\ part_text p = None.
Proof.
  intros (d & -> & Hmime & Hbody). split.
  - exists d. split; [done|]. intros _.
    destruct (d !! str "body") as [b|]; [|done]. unfold absent_or in *.
    by destruct Hbody as (body & -> & _).
  - cbn [part_text]. rewrite Hmime.
    destruct (d !! str "body") as [b|]; [|done]. unfold absent_or in Hbody.
    destruct Hbody as (body & -> & Hdata).
    destruct (body !! str "data") as [v|]; [|done].
    unfold absent_or in Hdata. by subst v.
Qed.

Lemma collect_text_parts_skip p pre post :
  empty_text_part p ->
  forall acc,
    collect_text_parts (pre ++ p :: post) acc =
    collect_text_parts (pre ++ post) acc.
Proof.
  intros [Hok Hnone]%empty_text_part_ok.
  induction pre as [|a pre IH]; intros acc; cbn [app].
  - rewrite collect_text_parts_cons_ok by done. rewrite Hnone. cbn.
    by rewrite app_nil_r.
  - by apply collect_text_parts_ext.
Qed.

Lemma extract_text_multipart_Ok d parts text :
  d !! str "parts" = Some (JList parts) ->
  extract_text_from_payload (JDict d) = Ok text <->
  Forall part_ok parts /\ text = join [10] (omap part_text parts).
Proof.
  intros Hparts. rewrite (extract_text_multipart _ _ Hparts). rsimpl.
  cbn [py_iter]. rsimpl.
  destruct (collect_text_parts parts []) as [tp|e] eqn:Hc; rsimpl.
  - apply collect_text_parts_spec in Hc as [Hok ->]. cbn [app].
    split; [by intros [= <-] | by intros [_ ->]].
  - split; [done|]. intros [Hok _].
    assert (collect_text_parts parts [] = Ok ([] ++ omap part_text parts)) as Hc'
      by by apply collect_text_parts_spec.
    congruence.
Qed.

(** Claim C6, as amended.  For a payload whose "parts" entry is a list,
    the extracted text (messageText before truncation) is returned
    exactly when every part is an object whose body, if the part
    declares text/plain, is an object or absent; it is then the decoded
    body data, joined by newline in payload order, of exactly those
    text/plain parts whose body data is a non-empty str that decodes.
    Parts of another content type contribute nothing, and a part whose
    data is empty, absent or undecodable is skipped. *)
Theorem multipart_text_join d parts text :
  d !! str "parts" = Some (JList parts) ->
  extract_text_from_payload (JDict d) = Ok text <->
  Forall part_ok parts /\ text = join [10] (omap part_text parts).
Proof. apply extract_text_multipart_Ok. Qed.

(** Counterexample to claim C6 as stated: with the text/plain parts "A",
    "" and "B" the code returns "A\nB", while the join of the decoded
    body data of the three text/plain parts is "A\n\nB". *)
Lemma multipart_text_spec_differs :
  extract_text_from_payload (multipart parts_A_empty_B)
  <> Ok (spec_multipart_text parts_A_empty_B).
Proof. vm_compute. discriminate. Qed.

Lemma part_ok_part mime data : part_ok (part mime data).
Proof.
  eexists. split; [reflexivity|]. intros _.
  by replace (_ !! str "body") with (Some (dict [("data", data)])).
Qed.

(** Two text/plain parts "A" and "B" around a text/html part give
    "A\nB". *)
Lemma multipart_text_join_witness :
  extract_text_from_payload (multipart parts_A_html_B) = Ok (str "A
B").
Proof.
  eapply multipart_text_join; [reflexivity|].
  split; [repeat constructor; apply part_ok_part | reflexivity].
Defined.

(** Claim C9.  When the payload has a "parts" key, the extracted text
    depends on the value of that key only: any other payload with the
    same "parts" value gives the same result, whatever its own content
    type and body.  If that value is a list of processable parts none of
    which contributes text, the extracted text is the empty str. *)
Theorem parts_key_selects_multipart d v :
  d !! str "parts" = Some v ->
  (forall d', d' !! str "parts" = Some v ->
     extract_text_from_payload (JDict d') = extract_text_from_payload (JDict d))
  /\ (forall parts, v = JList parts -> Forall part_ok parts ->
        omap part_text parts = [] ->
        extract_text_from_payload (JDict d) = Ok []).
Proof.
  intros Hv. split.
  - intros d' Hv'. by rewrite !(extract_text_multipart _ v).
  - intros parts -> Hok Hnone.
    apply (extract_text_multipart_Ok d parts); [done|]. by rewrite Hnone.
Qed.

(** Claim C10.  In the multipart branch a text/plain part whose body
    data is absent or the empty str contributes no element to the
    join: removing the part from the parts list leaves the result
    unchanged. *)
Theorem empty_text_part_skipped d pre p post :
  empty_text_part p ->
  extract_text_from_payload (JDict (<[str "parts" := JList (pre ++ p :: post)]> d)) =
  extract_text_from_payload (JDict (<[str "parts" := JList (pre ++ post)]> d)).
Proof.
  intros Hp.
  rewrite (extract_text_multipart _ (JList (pre ++ p :: post)))
    by apply lookup_insert_eq.
  rewrite (extract_text_multipart _ (JList (pre ++ post)))
    by apply lookup_insert_eq.
  cbn [py_iter]. rsimpl. by rewrite collect_text_parts_skip.
Qed.

(** The text/plain parts "A", "" and "B" give "A\nB". *)
Lemma empty_text_part_skipped_witness :
  extract_text_from_payload (multipart parts_A_empty_B) = Ok (str "A
B").
Proof.
  assert (multipart parts_A_empty_B =
          JDict (<[str "parts" :=
                     JList ([part "text/plain" (b64 "A")] ++
                            part "text/plain" (JStr (str "")) ::
                            [part "text/plain" (b64 "B")])]>
                   {[ str "mimeType" := JStr (str "multipart/alternative") ]}))
    as -> by (vm_compute; reflexivity).
  rewrite empty_text_part_skipped; [vm_compute; reflexivity|].
  eexists. split; [reflexivity|]. split; [vm_compute; reflexivity|].
  replace (_ !! str "body") with (Some (dict [("data", JStr (str ""))]))
    by (vm_compute; reflexivity).
  eexists. split; [reflexivity|].
  by replace (_ !! str "data") with (Some (JStr [])) by (vm_compute; reflexivity).
Defined.

(** Claim C7.  For every text that UTF-8 can encode, the base64url
    encoding of its octets with the trailing '=' removed is decoded back
    to the text by the decoder of the normalizer (which appends "==="
    before decoding), and a text/plain payload carrying it as body data
    yields the text. *)
Theorem base64url_roundtrip text bs :
  utf8_encode text = Some bs ->
  decode_body_data (JStr (rstrip_pad (urlsafe_b64encode bs))) = Ok text /\
  extract_text_from_payload
    (dict [("mimeType", JStr (str "text/plain"));
           ("body", dict [("data", JStr (rstrip_pad (urlsafe_b64encode bs)))])])
  = Ok text.
Proof.
  intros Henc.
  pose proof (utf8_encode_bytes _ _ Henc) as Hbytes.
  assert (decode_body_data (JStr (rstrip_pad (urlsafe_b64encode bs))) = Ok text)
    as Hdec.
  { unfold decode_body_data. rsimpl. unfold urlsafe_b64decode.
    replace (forallb _ _) with true.
    2: { symmetry. apply is_ascii_Forall, Forall_app. split.
         - by apply rstrip_pad_Forall, urlsafe_b64encode_ascii.
         - by repeat constructor. }
    unfold a2b_base64. rewrite a2b_loop_encode by done. cbn [app]. rsimpl.
    unfold bytes_decode_utf8. by rewrite (utf8_decode_encode _ _ Henc). }
  split; [done|].
  unfold dict. cbn [fmap list_fmap fst snd].
  rewrite extract_text_simple by reflexivity.
  replace (truthy _) with true by reflexivity.
  replace (_ !! str "mimeType") with (Some (JStr (str "text/plain")))
    by reflexivity.
  rsimpl. rewrite bool_decide_eq_true_2 by done.
  replace (_ !! str "body")
    with (Some (dict [("data", JStr (rstrip_pad (urlsafe_b64encode bs)))]))
    by reflexivity.
  unfold dict. rsimpl. cbn [fmap list_fmap fst snd].
  replace (_ !! str "data")
    with (Some (JStr (rstrip_pad (urlsafe_b64encode bs)))) by reflexivity.
  rsimpl. rewrite Hdec.
  destruct (rstrip_pad (urlsafe_b64encode bs)) eqn:He; [|done].
  apply rstrip_pad_encode_nil in He; [|done]. subst bs.
  destruct text as [|c text]; [done|]. cbn in Henc.
  unfold utf8_encode_cp in Henc.
  destruct (utf8_encode text); repeat case_match; simplify_eq.
Qed.

(** The text "hi" travels as "aGk". *)
Lemma base64url_roundtrip_witness :
  decode_body_data (b64 "hi") = Ok (str "hi").
Proof.
  apply (base64url_roundtrip (str "hi") (str "hi")). reflexivity.
Defined.

Section HeaderFacts.

Context (unicode_lower : pystr -> pystr)
        (unicode_int : pystr -> option Z)
        (utcoffset : Z -> Z).

Local Abbreviation parse_message := (parse_message unicode_lower unicode_int utcoffset).
Local Abbreviation get_header_value := (get_header_value unicode_lower).
Local Abbreviation get_header_value_loop := (get_header_value_loop unicode_lower).
Local Abbreviation header_matches := (header_matches unicode_lower).
Local Abbreviation first_header_value := (first_header_value unicode_lower).
Local Abbreviation lower := (lower unicode_lower).

(** The first round of the loop, on a header that is an object with a
    str name. *)
Lemma get_header_value_loop_cons hd n rest name :
  from_option id (JStr []) (hd !! str "name") = JStr n ->
  get_header_value_loop (JDict hd :: rest) name =
  if bool_decide (lower n = lower name)
  then Ok (header_value (JDict hd))
  else get_header_value_loop rest name.
Proof.
  intros Hn. cbn [Gmail.get_header_value_loop]. rsimpl.
  change (str "") with (@nil Z). rewrite Hn. cbn [py_lower]. rsimpl.
  done.
Qed.

Lemma get_header_value_loop_Ok headers name v :
  get_header_value_loop headers name = Ok v ->
  first_header_value name headers v.
Proof.
  induction headers as [|h rest IH].
  - intros [= <-]. right. by split.
  - destruct h as [| | | | |hd]; try done.
    destruct (from_option id (JStr []) (hd !! str "name"))
      as [| | |n| |] eqn:Hn;
      try (cbn [Gmail.get_header_value_loop]; rsimpl;
           change (str "") with (@nil Z); rewrite Hn; done).
    rewrite (get_header_value_loop_cons _ _ _ _ Hn).
    case_bool_decide as Hmatch.
    + intros [= <-]. left. exists [], (JDict hd), rest.
      repeat split; [constructor|]. by exists hd, n.
    + assert (~ header_matches name (JDict hd)) as Hno.
      { intros (hd' & n' & [= <-] & Hn' & Hl). congruence. }
      intros [(pre & h & post & -> & Hpre & Hh & ->)|[Hall ->]]%IH.
      * left. exists (JDict hd :: pre), h, post.
        repeat split; [by constructor | done].
      * right. split; [by constructor | done].
Qed.

(** Claim C8.  In the record produced by [parse_message], sender and
    subject are the value of the first header, in the order of the
    header list of the payload, whose name equals "From" (respectively
    "Subject") once both are put in lower case, and the empty str when no
    header matches. *)
Theorem header_fields_first_match m r :
  parse_message m = Ok r ->
  exists d pd headers,
    m = JDict d /\
    from_option id (JDict ∅) (d !! str "payload") = JDict pd /\
    py_iter (from_option id (JList []) (pd !! str "headers")) = Ok headers /\
    first_header_value (str "From") headers (sender r) /\
    first_header_value (str "Subject") headers (subject r).
Proof.
  intros (d & pd & ts & from & subj & text & -> & Hpd & _ & Hfrom & Hsubj
          & _ & ->)%parse_message_Ok.
  unfold Gmail.get_header_value in Hfrom, Hsubj.
  destruct (py_iter _) as [headers|] eqn:Hiter; [|done].
  rsimpl in Hfrom. rsimpl in Hsubj.
  exists d, pd, headers.
  split; [done|]. split; [done|]. split; [done|].
  split; by apply get_header_value_loop_Ok.
Qed.

(** Claim C5.  In the record produced by [parse_message], messageText
    is the extracted text unchanged when that text has at most 500
    characters, and its first 500 characters followed by "..." when it
    has more. *)
Theorem message_text_truncation m r :
  parse_message m = Ok r ->
  exists d pd text,
    m = JDict d /\
    from_option id (JDict ∅) (d !! str "payload") = JDict pd /\
    extract_text_from_payload (JDict pd) = Ok text /\
    ((length text <= 500)%nat -> messageText r = JStr text) /\
    ((500 < length text)%nat ->
       messageText r = JStr (take 500 text ++ str "...")).
Proof.
  intros (d & pd & ts & from & subj & text & -> & Hpd & _ & _ & _
          & Htext & ->)%parse_message_Ok.
  exists d, pd, text.
  split; [done|]. split; [done|]. split; [done|].
  split; intros Hlen; cbn [messageText].
  - by rewrite (proj2 (Nat.ltb_ge _ _)) by lia.
  - by rewrite (proj2 (Nat.ltb_lt _ _)) by lia.
Qed.

End HeaderFacts.

(** ** The calendar *)

(** Look up the month tables at the constant indices of the goal. *)
Ltac eval_tables :=
  repeat match goal with
  | |- context [table_at ?t ?i] =>
    let v := eval vm_compute in (table_at t i) in
    change (table_at t i) with v
  end.

Lemma _ord2ymd_bounds ordinal :
  let '(y, m, d) := _ord2ymd ordinal in 1 <= m <= 12 /\ 1 <= d <= 31.
Proof.
  unfold _ord2ymd.
  set (n0 := (ordinal - 1) mod 146097).
  set (n1 := n0 mod 36524).
  set (n2 := n1 mod 1461).
  set (n := n2 mod 365).
  assert (0 <= n < 365) by (apply Z.mod_pos_bound; lia).
  generalize (n2 / 365) (n1 / 1461) (n0 / 36524) ((ordinal - 1) / 146097).
  intros k1 k4 k100 k400. clearbody n. clear n0 n1 n2.
  destruct (_ || _); [lia|].
  generalize ((k1 =? 3) && (negb (k4 =? 24) || (k100 =? 3))). intros leap.
  rewrite Z.shiftr_div_pow2 by lia. change (2 ^ 5) with 32.
  pose proof (Z.div_mod (n + 50) 32 ltac:(lia)) as Hdm.
  pose proof (Z.mod_pos_bound (n + 50) 32 ltac:(lia)) as Hmod.
  set (month := (n + 50) / 32) in *. clearbody month.
  assert (month = 1 \/ month = 2 \/ month = 3 \/ month = 4 \/ month = 5 \/
          month = 6 \/ month = 7 \/ month = 8 \/ month = 9 \/ month = 10 \/
          month = 11 \/ month = 12) as Hmonth by lia.
  destruct leap;
    repeat (destruct Hmonth as [->|Hmonth]; [eval_tables; zprune; lia|]);
    subst month; eval_tables; zprune; lia.
Qed.

Lemma civil_time_bounds t :
  let tm := civil_time t in
  1 <= tm_mon tm <= 12 /\ 1 <= tm_mday tm <= 31 /\
  0 <= tm_hour tm <= 23 /\ 0 <= tm_min tm <= 59 /\ 0 <= tm_sec tm <= 59.
Proof.
  unfold civil_time, civil_from_days.
  pose proof (_ord2ymd_bounds (t / 86400 + 719163)) as Hymd.
  destruct (_ord2ymd _) as [[y m] d]. cbn.
  pose proof (Z.mod_pos_bound t 86400 ltac:(lia)).
  generalize dependent (t mod 86400). intros sod Hsod.
  split; [lia|]. split; [lia|]. repeat split; zdiv.
Qed.

(** The ordinals of the years 1..9999: 1 is 0001-01-01 and 3652059 is
    9999-12-31. *)
Lemma _ord2ymd_year ordinal :
  1 <= ordinal <= 3652059 ->
  let '(y, m, d) := _ord2ymd ordinal in 1 <= y <= 9999.
Proof.
  intros Hord. unfold _ord2ymd.
  pose proof (Z.div_mod (ordinal - 1) 146097 ltac:(lia)) as E0.
  pose proof (Z.mod_pos_bound (ordinal - 1) 146097 ltac:(lia)) as B0.
  set (n0 := (ordinal - 1) mod 146097) in *.
  set (k400 := (ordinal - 1) / 146097) in *.
  pose proof (Z.div_mod n0 36524 ltac:(lia)) as E1.
  pose proof (Z.mod_pos_bound n0 36524 ltac:(lia)) as B1.
  set (n1 := n0 mod 36524) in *. set (k100 := n0 / 36524) in *.
  pose proof (Z.div_mod n1 1461 ltac:(lia)) as E2.
  pose proof (Z.mod_pos_bound n1 1461 ltac:(lia)) as B2.
  set (n2 := n1 mod 1461) in *. set (k4 := n1 / 1461) in *.
  pose proof (Z.div_mod n2 365 ltac:(lia)) as E3.
  pose proof (Z.mod_pos_bound n2 365 ltac:(lia)) as B3.
  set (n := n2 mod 365) in *. set (k1 := n2 / 365) in *.
  clearbody n k1 n2 k4 n1 k100 n0 k400.
  destruct (Z.eqb_spec k1 4) as [?|Hk1]; [cbn [orb]; lia|].
  destruct (Z.eqb_spec k100 4) as [?|Hk100]; [cbn [orb]; lia|].
  cbn [orb]. destruct (_ <? _); lia.
Qed.

(** The seconds of the years 1..9999 on a clock: -62135596800 is
    0001-01-01 00:00:00 and 253402300799 is 9999-12-31 23:59:59. *)
Lemma civil_time_year s :
  -62135596800 <= s <= 253402300799 ->
  1 <= tm_year (civil_time s) <= 9999.
Proof.
  intros Hs. unfold civil_time, civil_from_days.
  assert (1 <= s / 86400 + 719163 <= 3652059) as Hord by zdiv.
  pose proof (_ord2ymd_year _ Hord) as Hy.
  by destruct (_ord2ymd _) as [[y m] d].
Qed.

Lemma digit_char n : 0 <= n <= 9 -> 48 <= 48 + n <= 57.
Proof. lia. Qed.

Lemma strftime_shape tm :
  1000 <= tm_year tm <= 9999 -> 1 <= tm_mon tm <= 12 -> 1 <= tm_mday tm <= 31 ->
  0 <= tm_hour tm <= 23 -> 0 <= tm_min tm <= 59 -> 0 <= tm_sec tm <= 59 ->
  timestamp_shape (strftime tm).
Proof.
  destruct tm as [y mo d h mi s]. cbn [tm_year tm_mon tm_mday tm_hour tm_min tm_sec].
  intros Hy Hmo Hd Hh Hmi Hs.
  unfold strftime, year_digits, digits4, digits2.
  cbn [tm_year tm_mon tm_mday tm_hour tm_min tm_sec].
  destruct (Z.ltb_spec y 10); [lia|]. destruct (Z.ltb_spec y 100); [lia|].
  destruct (Z.ltb_spec y 1000); [lia|].
  split; [reflexivity|]. cbn [app].
  intros i c Hi.
  do 19 (destruct i as [|i];
         [injection Hi as <-; cbn; first [reflexivity | apply digit_char; zdiv]|]).
  done.
Qed.

Section TimestampFacts.

Context (unicode_lower : pystr -> pystr)
        (unicode_int : pystr -> option Z)
        (utcoffset : Z -> Z).

Local Abbreviation parse_message := (parse_message unicode_lower unicode_int utcoffset).
Local Abbreviation py_int := (py_int unicode_int).
Local Abbreviation fromtimestamp_ms := (fromtimestamp_ms utcoffset).
Local Abbreviation local_seconds := (local_seconds utcoffset).
Local Abbreviation local_offset := (local_offset utcoffset).
Local Abbreviation localtime := (localtime utcoffset).

Lemma local_offset_bound t : -86400 <= local_offset t <= 86400.
Proof. unfold Gmail.local_offset. lia. Qed.

Lemma local_offset_within t :
  -86400 <= utcoffset t <= 86400 -> local_offset t = utcoffset t.
Proof. unfold Gmail.local_offset. lia. Qed.

Lemma local_seconds_Ok t s :
  local_seconds t = Ok s ->
  s = t + local_offset t /\ 1 <= tm_year (localtime t) <= 9999.
Proof.
  unfold Gmail.local_seconds, year_in_range, MINYEAR, MAXYEAR.
  zprune; try done. intros [= <-]. split; [done | lia].
Qed.

Lemma local_seconds_in_range t :
  -62135596800 + 86400 <= t <= 253402300799 - 86400 ->
  local_seconds t = Ok (t + local_offset t).
Proof.
  intros Ht. pose proof (local_offset_bound t) as Hoff.
  unfold Gmail.local_seconds, year_in_range, MINYEAR, MAXYEAR.
  pose proof (civil_time_year (t + local_offset t) ltac:(lia)) as Hy.
  fold (localtime t) in Hy. zprune. done.
Qed.

(** What a conversion that returns has given. *)
Lemma fromtimestamp_ms_Ok ms tm :
  fromtimestamp_ms ms = Ok tm ->
  tm = localtime (ms / 1000) /\ 1 <= tm_year tm <= 9999.
Proof.
  unfold Gmail.fromtimestamp_ms. cbv zeta.
  destruct (local_seconds (ms / 1000)) as [s|] eqn:Hs; rsimpl; [|done].
  apply local_seconds_Ok in Hs as [_ Hyear].
  destruct (local_seconds (ms / 1000 - max_fold_seconds)); rsimpl; [|done].
  destruct (if _ <? 0 then _ else _); rsimpl; [|done].
  by intros [= <-].
Qed.

(** The conversion returns for the instants that every zone shows in
    the years 1..9999 up to three days back. *)
Lemma fromtimestamp_ms_safe ms :
  first_safe_instant <= ms / 1000 <= last_safe_instant ->
  fromtimestamp_ms ms = Ok (localtime (ms / 1000)).
Proof.
  unfold first_safe_instant, last_safe_instant. intros Ht.
  unfold Gmail.fromtimestamp_ms, max_fold_seconds. cbv zeta.
  generalize dependent (ms / 1000). intros t Ht.
  change (24 * 3600) with 86400.
  pose proof (local_offset_bound t).
  pose proof (local_offset_bound (t - 86400)).
  rewrite (local_seconds_in_range t) by lia. rsimpl.
  rewrite (local_seconds_in_range (t - 86400)) by lia. rsimpl.
  destruct (Z.ltb_spec (t + local_offset t - (t - 86400 + local_offset (t - 86400))
                        - 86400) 0); [|done].
  rewrite local_seconds_in_range by lia. done.
Qed.


End TimestampFacts.



Lemma is_str_inv v : is_str v = true -> exists s, v = JStr s.
Proof. destruct v; try done. eauto. Qed.

Lemma is_dict_inv v : is_dict v = true -> exists d, v = JDict d.
Proof. destruct v; try done. eauto. Qed.

Lemma absent_or_str_default o :
  absent_or (fun v => is_str v = true) o ->
  exists s, from_option id (JStr []) o = JStr s.
Proof. destruct o as [v|]; cbn; [apply is_str_inv | eauto]. Qed.

Lemma absent_or_dict_default o :
  absent_or (fun v => is_dict v = true) o ->
  exists d, from_option id (JDict ∅) o = JDict d.
Proof. destruct o as [v|]; cbn; [apply is_dict_inv | eauto]. Qed.

Lemma extract_text_total p :
  payload_ok p -> exists text, extract_text_from_payload p = Ok text.
Proof.
  intros (pd & -> & _ & Hparts & Hbody).
  destruct (pd !! str "parts") as [v|] eqn:Hv.
  - destruct Hparts as (ps & -> & Hps). eexists.
    by apply (extract_text_multipart_Ok pd ps).
  - rewrite extract_text_simple by done.
    destruct (truthy _); [|eauto].
    destruct (pd !! str "mimeType") as [[| | |mime| |]|] eqn:Hmime;
      cbn [from_option id py_eq_str]; eauto.
    case_bool_decide as Hplain; [subst mime|eauto].
    apply absent_or_dict_default in Hbody as [body ->]; [|done..]. rsimpl.
    destruct (truthy _); [|eauto]. destruct (decode_body_data _); cbn; eauto.
Qed.

Section TotalityFacts.

Context (unicode_lower : pystr -> pystr)
        (unicode_int : pystr -> option Z)
        (utcoffset : Z -> Z).

Local Abbreviation parse_message := (parse_message unicode_lower unicode_int utcoffset).
Local Abbreviation get_header_value := (get_header_value unicode_lower).
Local Abbreviation get_header_value_loop := (get_header_value_loop unicode_lower).
Local Abbreviation message_ok := (message_ok unicode_int).

Lemma get_header_value_loop_total headers name :
  Forall header_ok headers ->
  exists s, get_header_value_loop headers name = Ok (JStr s).
Proof.
  induction 1 as [|h rest (hd & -> & Hname & Hvalue) _ IH]; [by exists []|].
  apply absent_or_str_default in Hname as [n Hn].
  rewrite (get_header_value_loop_cons _ _ _ _ _ Hn).
  case_bool_decide; [|done].
  apply absent_or_str_default in Hvalue as [s Hs]. exists s. cbn. by rewrite Hs.
Qed.


End TotalityFacts.

(** ** [gather] *)

Section GatherFacts.

Context {A : Type}.
Implicit Types (tasks : list (result A)) (slots : list (option A)).

Lemma slots_agree_init tasks :
  slots_agree tasks (replicate (length tasks) None).
Proof.
  split; [by rewrite length_replicate|].
  intros i v [? _]%lookup_replicate. done.
Qed.

Lemma settle_Raise tasks sched : forall slots e,
  settle tasks sched slots = Raise e -> Raise e ∈ tasks.
Proof.
  induction sched as [|i sched IH]; intros slots e; cbn [settle]; [done|].
  destruct (slots !! i) as [[v|]|] eqn:Hs; [by apply IH| |by apply IH].
  destruct (tasks !! i) as [[v|e']|] eqn:Ht; [by apply IH| |by apply IH].
  intros [= ->]. by eapply list_elem_of_lookup_2.
Qed.

Lemma settle_Ok tasks sched : forall slots slots',
  slots_agree tasks slots ->
  settle tasks sched slots = Ok slots' ->
  slots_agree tasks slots' /\
  (forall i, is_Some (slots !! i ≫= id) -> is_Some (slots' !! i ≫= id)) /\
  (forall i, i ∈ sched -> (i < length tasks)%nat ->
             is_Some (slots' !! i ≫= id)).
Proof.
  induction sched as [|i sched IH]; intros slots slots' Hagree; cbn [settle].
  - intros [= <-]. split; [done|]. split; [done|]. by intros i ?%elem_of_nil.
  - assert (forall s', slots_agree tasks s' ->
              (forall j, is_Some (slots !! j ≫= id) -> is_Some (s' !! j ≫= id)) ->
              ((i < length tasks)%nat -> is_Some (s' !! i ≫= id)) ->
              settle tasks sched s' = Ok slots' ->
              slots_agree tasks slots' /\
              (forall j, is_Some (slots !! j ≫= id) ->
                         is_Some (slots' !! j ≫= id)) /\
              (forall j, j ∈ i :: sched -> (j < length tasks)%nat ->
                         is_Some (slots' !! j ≫= id))) as Hstep.
    { intros s' Hs' Hmono Hi Hsettle.
      destruct (IH _ _ Hs' Hsettle) as (Hagree' & Hmono' & Hsched).
      split; [done|]. split; [by auto|].
      intros j [->|Hj]%elem_of_cons Hlt; [by auto | by auto]. }
    destruct Hagree as [Hlen Hvals].
    destruct (slots !! i) as [[v|]|] eqn:Hs.
    + apply Hstep; [done|done|]. intros _. rewrite Hs. by eexists.
    + destruct (tasks !! i) as [[v|e']|] eqn:Ht; [|done|].
      * apply Hstep.
        -- split; [by rewrite length_insert|].
           intros j w. destruct (decide (i = j)) as [<-|Hne].
           ++ rewrite list_lookup_insert_eq
                by (apply lookup_lt_Some in Hs; lia).
              by intros [= <-].
           ++ rewrite list_lookup_insert_ne by done. apply Hvals.
        -- intros j. destruct (decide (i = j)) as [<-|Hne].
           ++ rewrite Hs. by intros [? [=]].
           ++ by rewrite list_lookup_insert_ne.
        -- intros _. rewrite list_lookup_insert_eq
             by (apply lookup_lt_Some in Hs; lia). by eexists.
      * apply lookup_ge_None in Ht. apply Hstep; [done|done|lia].
    + apply lookup_ge_None in Hs. apply Hstep; [done|done|lia].
Qed.

Lemma settle_no_Raise tasks sched : forall slots,
  (forall e, Raise e ∉ tasks) ->
  exists slots', settle tasks sched slots = Ok slots'.
Proof.
  induction sched as [|i sched IH]; intros slots Hno; cbn [settle]; [eauto|].
  destruct (slots !! i) as [[v|]|]; [by apply IH| |by apply IH].
  destruct (tasks !! i) as [[v|e]|] eqn:Ht; [by apply IH| |by apply IH].
  destruct (Hno e). by eapply list_elem_of_lookup_2.
Qed.

Lemma filled_slots tasks slots :
  slots_agree tasks slots ->
  (forall i, (i < length tasks)%nat -> is_Some (slots !! i ≫= id)) ->
  tasks = Ok <$> omap id slots.
Proof.
  intros [Hlen Hvals] Hfull. revert tasks Hlen Hvals Hfull.
  induction slots as [|s slots IH]; intros [|t tasks] Hlen Hvals Hfull;
    try done.
  destruct (Hfull 0%nat ltac:(cbn; lia)) as [v Hv]. cbn in Hv.
  destruct s as [w|]; [|done]. injection Hv as ->.
  pose proof (Hvals 0%nat v eq_refl) as [= ->].
  cbn. f_equal. apply IH.
  - cbn in Hlen. lia.
  - intros i w. apply (Hvals (S i)).
  - intros i Hi. apply (Hfull (S i)). cbn. lia.
Qed.

Lemma Ok_fmap_inj (l l' : list A) : Ok <$> l = Ok <$> l' -> l = l'.
Proof.
  revert l'. induction l as [|a l IH]; intros [|a' l']; try done.
  cbn. intros [= -> ?]. f_equal. by apply IH.
Qed.

(** [gather] returns values exactly when every task returned one, and
    lists them in the order of the tasks, whatever the schedule. *)
Lemma gather_Ok sched tasks vs :
  gather sched tasks = Ok vs <-> tasks = Ok <$> vs.
Proof.
  assert (forall vs', gather sched tasks = Ok vs' -> tasks = Ok <$> vs')
    as Hfwd.
  { unfold gather. intros vs'.
    destruct (settle _ _ _) as [slots|] eqn:Hsettle; [|done].
    intros [= <-].
    destruct (settle_Ok _ _ _ _ (slots_agree_init tasks) Hsettle)
      as (Hagree & _ & Hsched).
    apply filled_slots; [done|]. intros i Hi. apply Hsched; [|done].
    apply elem_of_app. right. apply elem_of_seq. lia. }
  split; [apply Hfwd|]. intros Htasks.
  destruct (gather sched tasks) as [vs'|e] eqn:Hg.
  - specialize (Hfwd vs' eq_refl). rewrite Hfwd in Htasks.
    apply Ok_fmap_inj in Htasks. by subst.
  - unfold gather in Hg.
    destruct (settle_no_Raise tasks (sched ++ seq 0 (length tasks))
                (replicate (length tasks) None)) as [slots Hs].
    { intros e' He'. subst tasks.
      apply list_elem_of_fmap in He' as (? & [=] & _). }
    by rewrite Hs in Hg.
Qed.

(** A raised exception is the exception of one of the tasks. *)
Lemma gather_Raise sched tasks e :
  gather sched tasks = Raise e -> Raise e ∈ tasks.
Proof.
  unfold gather. destruct (settle _ _ _) eqn:Hs; [done|].
  intros [= ->]. by eapply settle_Raise.
Qed.

(** One failing task makes the whole [gather] fail. *)
Lemma gather_fails sched tasks e :
  Raise e ∈ tasks -> exists e', gather sched tasks = Raise e'.
Proof.
  intros He. destruct (gather sched tasks) as [vs|e'] eqn:Hg; [|eauto].
  apply gather_Ok in Hg. subst tasks.
  apply list_elem_of_fmap in He as (? & [=] & _).
Qed.

End GatherFacts.

Lemma mapM_result_Ok {A B} (f : A -> result B) l bs :
  mapM f l = Ok bs <-> Forall2 (fun a b => f a = Ok b) l bs.
Proof.
  revert bs. induction l as [|a l IH]; intros bs; cbn.
  - split; [intros [= <-]; constructor | by inversion 1].
  - destruct (f a) as [b|e] eqn:Hf; cbn.
    + destruct (mapM f l) as [bs'|e] eqn:Hm; cbn.
      * split.
        -- intros [= <-]. constructor; [done|]. by apply IH.
        -- inversion 1 as [|? b' ? bs'' Hb Hbs]; subst.
           apply IH in Hbs. injection Hbs as <-.
           rewrite Hf in Hb. by injection Hb as <-.
      * split; [done|]. inversion 1 as [|? b' ? bs'' Hb Hbs]; subst.
        by apply IH in Hbs.
    + split; [done|]. inversion 1; congruence.
Qed.

Section OrchestratorFacts.

Context (unicode_lower : pystr -> pystr)
        (unicode_int : pystr -> option Z)
        (utcoffset : Z -> Z)
        (session_get : request -> result response).

Local Abbreviation parse_message := (parse_message unicode_lower unicode_int utcoffset).
Local Abbreviation _make_request := (_make_request session_get).
Local Abbreviation get_labels := (get_labels session_get).
Local Abbreviation get_profile := (get_profile session_get).
Local Abbreviation get_message_list := (get_message_list session_get).
Local Abbreviation get_message_details := (get_message_details session_get).
Local Abbreviation fetch_gmail_data_async :=
  (fetch_gmail_data_async unicode_lower unicode_int utcoffset session_get).

Lemma get_message_list_Ok max_results v :
  get_message_list max_results = Ok v -> exists ids, v = JList ids.
Proof.
  unfold Gmail.get_message_list.
  destruct (_make_request _) as [data|]; rsimpl; [|done].
  destruct (py_get data _ _) as [messages|]; rsimpl; [|done].
  destruct (py_iter messages) as [items|]; rsimpl; [|done].
  destruct (mapM _ items) as [ids|]; rsimpl; [|done].
  intros [= <-]. eauto.
Qed.

(** What a successful run amounts to. *)
Lemma fetch_gmail_data_async_Ok sched1 sched2 fr :
  fetch_gmail_data_async sched1 sched2 = Ok fr <->
  exists ids details,
    get_labels = Ok (labels fr) /\
    get_profile = Ok (profile fr) /\
    get_message_list 10 = Ok (JList ids) /\
    get_message_details <$> ids = Ok <$> details /\
    mapM parse_message details = Ok (emails fr).
Proof.
  unfold Gmail.fetch_gmail_data_async. split.
  - destruct (gather sched1 _) as [phase1|] eqn:H1; rsimpl; [|done].
    apply gather_Ok in H1.
    destruct phase1 as [|l [|p [|mids [|]]]]; try done.
    injection H1 as Hl Hp Hm.
    destruct (get_message_list_Ok _ _ Hm) as [ids ->].
    cbn [py_iter]. rsimpl.
    destruct (gather sched2 _) as [details|] eqn:H2; rsimpl; [|done].
    apply gather_Ok in H2.
    destruct (mapM _ details) as [parsed|] eqn:H3; rsimpl; [|done].
    intros [= <-]. by exists ids, details.
  - intros (ids & details & Hl & Hp & Hm & Hd & Hparse).
    rewrite (proj2 (gather_Ok sched1 _ [labels fr; profile fr; JList ids]))
      by (cbn; by rewrite Hl, Hp, Hm).
    rsimpl. cbn [py_iter]. rsimpl.
    rewrite (proj2 (gather_Ok sched2 _ details) Hd). rsimpl.
    rewrite Hparse. rsimpl. by destruct fr.
Qed.

(** Claim C4.  When the orchestrator returns a result, whatever the
    completion orders [sched1] and [sched2] of the two batches of
    requests, the emails are, position by position, the records parsed
    from the details fetched for the ids of the message-id list. *)
Theorem emails_follow_id_order sched1 sched2 fr :
  fetch_gmail_data_async sched1 sched2 = Ok fr ->
  exists ids,
    get_message_list 10 = Ok (JList ids) /\
    Forall2 (fun message_id record =>
               exists detail,
                 get_message_details message_id = Ok detail /\
                 parse_message detail = Ok record)
            ids (emails fr).
Proof.
  intros (ids & details & _ & _ & Hm & Hd & Hparse)%fetch_gmail_data_async_Ok.
  exists ids. split; [done|].
  apply mapM_result_Ok in Hparse.
  assert (Forall2 (fun message_id detail =>
                     get_message_details message_id = Ok detail) ids details)
    as Hdetails.
  { clear -Hd. revert details Hd.
    induction ids as [|i ids IH]; intros [|d details]; try done.
    cbn. intros [= ? ?]. constructor; auto. }
  clear -Hdetails Hparse. revert Hparse. generalize (emails fr).
  induction Hdetails as [|i d ids details Hi _ IH]; intros recs;
    inversion 1; subst; constructor; eauto.
Qed.

(** Claim C3.  If one of the three requests of phase 1 fails, or if
    phase 1 succeeds and one of the detail requests of phase 2 fails,
    then whatever the completion orders the orchestrator returns no
    result: it raises one exception, which is the exception of a task of
    the failing phase. *)
Theorem fetch_failure_propagates sched1 sched2 :
  (exists e, Raise e ∈ (_make_request <$> [GetLabels; GetProfile; GetMessages 10]))
  \/ (exists l p ids e,
        get_labels = Ok l /\ get_profile = Ok p /\
        get_message_list 10 = Ok (JList ids) /\
        Raise e ∈ ((fun i => _make_request (GetMessage i)) <$> ids)) ->
  exists e',
    fetch_gmail_data_async sched1 sched2 = Raise e' /\
    (Raise e' ∈ [get_labels; get_profile; get_message_list 10]
     \/ exists ids, get_message_list 10 = Ok (JList ids) /\
          Raise e' ∈ (get_message_details <$> ids)).
Proof.
  unfold Gmail.fetch_gmail_data_async.
  intros [[e He]|(l & p & ids & e & Hl & Hp & Hm & He)].
  - assert (Raise e ∈ [get_labels; get_profile; get_message_list 10]) as Htask.
    { unfold Gmail.get_labels, Gmail.get_profile,
        Gmail.get_message_list.
      cbn in He. set_unfold.
      destruct He as [He|[He|[He|[]]]]; rewrite <- He; auto. }
    destruct (gather_fails sched1 _ _ Htask) as [e' He'].
    exists e'. rewrite He'. split; [done|]. left. by eapply gather_Raise.
  - rewrite (proj2 (gather_Ok sched1 _ [l; p; JList ids]))
      by (cbn; by rewrite Hl, Hp, Hm).
    rsimpl. cbn [py_iter]. rsimpl.
    destruct (gather_fails sched2 (get_message_details <$> ids) e He)
      as [e' He'].
    exists e'. rewrite He'. split; [done|]. right. exists ids.
    split; [done|]. by eapply gather_Raise.
Qed.

End OrchestratorFacts.

(** Details that complete in the order m3, m1, m2 are listed as m1,
    m2, m3. *)
Lemma emails_follow_id_order_witness :
  exists fr,
    fetch_gmail_data_async no_unicode_lower no_unicode_int utc mailbox_complete
      [2; 1; 0]%nat [2; 0; 1]%nat = Ok fr /\
    emails fr = [id_record "m1"; id_record "m2"; id_record "m3"].
Proof.
  eexists. split; [vm_compute; reflexivity|].
  edestruct (emails_follow_id_order no_unicode_lower no_unicode_int utc
               mailbox_complete [2; 1; 0]%nat [2; 0; 1]%nat) as (ids & _ & _);
    [vm_compute; reflexivity|].
  vm_compute. reflexivity.
Defined.

(** The third scenario: the detail request of "m2" is answered by 404
    while "m1" and "m3" succeed; the caller sees that one error. *)
Lemma fetch_failure_propagates_witness :
  fetch_gmail_data_async no_unicode_lower no_unicode_int utc mailbox_without_m2
    [0; 1; 2]%nat [2; 0; 1]%nat = Raise (HTTPStatusError 404).
Proof.
  destruct (fetch_failure_propagates no_unicode_lower no_unicode_int utc
              mailbox_without_m2 [0; 1; 2]%nat [2; 0; 1]%nat)
    as (e' & He' & _).
  - right. eexists _, _, _, (HTTPStatusError 404).
    split; [vm_compute; reflexivity|]. split; [vm_compute; reflexivity|].
    split; [vm_compute; reflexivity|].
    vm_compute. right. left.
  - rewrite He'. vm_compute in He'. by injection He' as <-.
Defined.

(** Look up the constant keys in the constant dicts of the goal. *)
Ltac eval_lookups :=
  repeat match goal with
  | |- context [@lookup ?K ?V ?M ?I ?k ?d] =>
    let v := eval vm_compute in (@lookup K V M I k d) in
    replace (@lookup K V M I k d) with v by (vm_compute; reflexivity)
  end.



(** The boundary: a body of 500 characters is kept as it is, a body of
    501 characters is cut to 500 and followed by "...". *)
Lemma message_text_truncation_witness :
  (exists r,
     parse_message no_unicode_lower no_unicode_int utc (message_with_body 500)
       = Ok r /\
     messageText r = JStr (replicate 500 97)) /\
  (exists r,
     parse_message no_unicode_lower no_unicode_int utc (message_with_body 501)
       = Ok r /\
     messageText r = JStr (replicate 500 97 ++ str "...")).
Proof.
  split.
  - eexists. split; [vm_compute; reflexivity|].
    edestruct (message_text_truncation no_unicode_lower no_unicode_int utc
                 (message_with_body 500))
      as (d & pd & text & _ & _ & _ & _ & _); [vm_compute; reflexivity|].
    vm_compute. reflexivity.
  - eexists. split; [vm_compute; reflexivity|].
    edestruct (message_text_truncation no_unicode_lower no_unicode_int utc
                 (message_with_body 501))
      as (d & pd & text & _ & _ & _ & _ & _); [vm_compute; reflexivity|].
    vm_compute. reflexivity.
Defined.

(** The first scenario: the sender is the value of the From header. *)
Lemma header_fields_first_match_witness :
  sender complete_record = JStr (str "a@b.com") /\
  first_header_value no_unicode_lower (str "From")
    [dict [("name", JStr (str "From")); ("value", JStr (str "a@b.com"))];
     dict [("name", JStr (str "Subject")); ("value", JStr (str "Hi"))]]
    (sender complete_record).
Proof.
  split; [reflexivity|].
  destruct (header_fields_first_match no_unicode_lower no_unicode_int utc
              complete_message complete_record)
    as (d & pd & headers & Hd & Hpd & Hh & Hfrom & _);
    [vm_compute; reflexivity|].
  injection Hd as <-.
  vm_compute in Hpd. injection Hpd as <-.
  vm_compute in Hh. injection Hh as <-.
  exact Hfrom.
Defined.

(** A text/plain payload with decodable body data and an empty parts
    list: the body data is ignored. *)
Lemma parts_key_selects_multipart_witness :
  extract_text_from_payload
    (dict [("mimeType", JStr (str "text/plain"));
           ("body", dict [("data", b64 "top")]);
           ("parts", JList [])]) = Ok [].
Proof.
  eapply parts_key_selects_multipart;
    [vm_compute; reflexivity | reflexivity | constructor | reflexivity].
Defined.

(** ** Further properties of the normalizer *)

(** With its padding kept, the encoding is decoded as well: the '='
    that close the last group end the decoding before the appended
    "===" is read. *)
Lemma a2b_loop_encode_padded bs : forall out,
  Forall is_byte bs ->
  a2b_base64_loop
    (urlsafe_decode_translation <$> (urlsafe_b64encode bs ++ str "==="))
    0 0 0 out = Ok (out ++ bs).
Proof.
  induction bs as [|b0|b0 b1|b0 b1 b2 rest IH] using list_ind3; intros out Hbs.
  - simpl. by rewrite app_nil_r.
  - apply Forall_cons_1 in Hbs as [H0 _]. unfold is_byte in H0.
    cbn [urlsafe_b64encode app fmap list_fmap a2b_base64_loop].
    rewrite !char_not_pad, !table_of_char by zdiv.
    simpl. do 3 f_equal. zdiv.
  - apply Forall_cons_1 in Hbs as [H0 Hbs].
    apply Forall_cons_1 in Hbs as [H1 _]. unfold is_byte in H0, H1.
    cbn [urlsafe_b64encode app fmap list_fmap a2b_base64_loop].
    rewrite !char_not_pad, !table_of_char by zdiv.
    simpl. rewrite <- app_assoc. simpl. do 3 f_equal; [| f_equal]; zdiv.
  - apply Forall_cons_1 in Hbs as [H0 Hbs].
    apply Forall_cons_1 in Hbs as [H1 Hbs].
    apply Forall_cons_1 in Hbs as [H2 Hbs].
    cbn [urlsafe_b64encode]. rewrite <- !app_comm_cons.
    rewrite a2b_loop_group by done.
    rewrite IH by done. by rewrite <- app_assoc.
Qed.

(** X2.  The decoder of the normalizer also accepts the padded encoding,
    which is what the tests feed it: for every text that UTF-8 can
    encode, [urlsafe_b64encode] of its octets, padding included, is
    decoded back to the text. *)
Theorem padded_base64url_roundtrip text bs :
  utf8_encode text = Some bs ->
  decode_body_data (JStr (urlsafe_b64encode bs)) = Ok text.
Proof.
  intros Henc. pose proof (utf8_encode_bytes _ _ Henc) as Hbytes.
  unfold decode_body_data. rsimpl. unfold urlsafe_b64decode.
  replace (forallb _ _) with true.
  2: { symmetry. apply is_ascii_Forall, Forall_app. split.
       - by apply urlsafe_b64encode_ascii.
       - by repeat constructor. }
  unfold a2b_base64. rewrite a2b_loop_encode_padded by done. cbn [app]. rsimpl.
  unfold bytes_decode_utf8. by rewrite (utf8_decode_encode _ _ Henc).
Qed.

Lemma padded_base64url_roundtrip_witness :
  decode_body_data (JStr (str "aGk=")) = Ok (str "hi").
Proof.
  apply (padded_base64url_roundtrip (str "hi") (str "hi")). reflexivity.
Defined.

(** X3.  A payload object without a "parts" key whose body is absent or
    an object never makes the extraction raise, whatever its body data
    is: the text is the decoded body data, or the empty str. *)
Theorem simple_payload_never_raises (d : gmap pystr json) :
  d !! str "parts" = None ->
  absent_or (fun b => is_dict b = true) (d !! str "body") ->
  exists text,
    extract_text_from_payload (JDict d) = Ok text /\
    (text = [] \/
     exists body data,
       d !! str "body" = Some (JDict body) /\
       body !! str "data" = Some data /\
       decode_body_data data = Ok text).
Proof.
  intros Hparts Hbody. rewrite extract_text_simple by done.
  destruct (truthy (JDict d)); [|by eauto].
  destruct (py_eq_str _ _); [|by eauto].
  destruct (d !! str "body") as [b|] eqn:Hb; rsimpl.
  2: { rewrite lookup_empty. rsimpl. change (str "") with (@nil Z). eauto. }
  unfold absent_or in Hbody. apply is_dict_inv in Hbody as [body ->]. rsimpl.
  destruct (body !! str "data") as [data|] eqn:Hdata; rsimpl.
  2: { change (str "") with (@nil Z). eauto. }
  destruct (truthy data); [|by eauto].
  destruct (decode_body_data data) as [text|] eqn:Hdec; cbn; [|by eauto].
  exists text. split; [done|]. right. by exists body, data.
Qed.

Lemma simple_payload_never_raises_witness :
  extract_text_from_payload
    (dict [("mimeType", JStr (str "text/plain"));
           ("body", dict [("data", JStr (str "a"))])]) = Ok [].
Proof.
  edestruct (simple_payload_never_raises
               (list_to_map [(str "mimeType", JStr (str "text/plain"));
                             (str "body", dict [("data", JStr (str "a"))])]))
    as (text & Htext & _); [vm_compute; reflexivity| |].
  - by replace (_ !! str "body") with (Some (dict [("data", JStr (str "a"))]))
      by (vm_compute; reflexivity).
  - vm_compute. reflexivity.
Defined.

(** X4.  A payload object without a "parts" key that does not declare
    text/plain yields the empty str, and its body is never looked at:
    it may be anything. *)
Theorem other_content_type_yields_empty (d : gmap pystr json) :
  d !! str "parts" = None ->
  d !! str "mimeType" <> Some (JStr (str "text/plain")) ->
  extract_text_from_payload (JDict d) = Ok [].
Proof.
  intros Hparts Hmime. rewrite extract_text_simple by done.
  destruct (truthy _); [|done].
  destruct (d !! str "mimeType") as [[| | |mime| |]|]; rsimpl; try done.
  case_bool_decide; [by subst|done].
Qed.

Lemma other_content_type_yields_empty_witness :
  extract_text_from_payload
    (dict [("mimeType", JStr (str "text/html")); ("body", JNull)]) = Ok [].
Proof.
  apply other_content_type_yields_empty; [vm_compute; reflexivity|].
  vm_compute. discriminate.
Defined.

(** X5.  A payload object without a "parts" key that declares text/plain
    and whose body is present but not an object makes the extraction
    raise [AttributeError]: the access to the body data is outside the
    [try] block. *)
Theorem text_plain_body_not_object_raises (d : gmap pystr json) b :
  d !! str "parts" = None ->
  d !! str "mimeType" = Some (JStr (str "text/plain")) ->
  d !! str "body" = Some b -> is_dict b = false ->
  extract_text_from_payload (JDict d) = Raise AttributeError.
Proof.
  intros Hparts Hmime Hb Hnot. rewrite extract_text_simple by done.
  rewrite (truthy_dict_lookup _ _ _ Hmime), Hmime, Hb. rsimpl.
  rewrite bool_decide_eq_true_2 by done. by destruct b.
Qed.

Lemma text_plain_body_not_object_raises_witness :
  extract_text_from_payload
    (dict [("mimeType", JStr (str "text/plain")); ("body", JNull)])
  = Raise AttributeError.
Proof.
  eapply text_plain_body_not_object_raises; vm_compute; reflexivity.
Defined.

Lemma collect_text_parts_not_object pre p post : forall acc,
  Forall part_ok pre -> is_dict p = false ->
  collect_text_parts (pre ++ p :: post) acc = Raise AttributeError.
Proof.
  intros acc Hpre Hp. revert acc.
  induction Hpre as [|a pre Ha _ IH]; intros acc; cbn [app].
  - by destruct p.
  - rewrite collect_text_parts_cons_ok by done. apply IH.
Qed.

(** X6.  In the multipart branch a part that is not an object makes the
    extraction raise [AttributeError], whatever the parts after it, when
    the parts before it can be processed. *)
Theorem part_not_object_raises (d : gmap pystr json) pre p post :
  d !! str "parts" = Some (JList (pre ++ p :: post)) ->
  Forall part_ok pre -> is_dict p = false ->
  extract_text_from_payload (JDict d) = Raise AttributeError.
Proof.
  intros Hparts Hpre Hp. rewrite (extract_text_multipart _ _ Hparts).
  cbn [py_iter]. rsimpl. by rewrite collect_text_parts_not_object.
Qed.

Lemma part_not_object_raises_witness :
  extract_text_from_payload
    (multipart [part "text/plain" (b64 "A"); JStr (str "B")])
  = Raise AttributeError.
Proof.
  eapply (part_not_object_raises _ [part "text/plain" (b64 "A")]
            (JStr (str "B")) []);
    [vm_compute; reflexivity | | reflexivity].
  repeat constructor. apply part_ok_part.
Defined.

(** X7.  The extraction reads the top level of the parts only: when no
    part of the list declares text/plain itself, the text is empty,
    whatever the parts contain (a nested multipart part with text/plain
    parts of its own contributes nothing). *)
Theorem nested_parts_ignored (d : gmap pystr json) parts :
  d !! str "parts" = Some (JList parts) ->
  Forall (fun p => exists pd, p = JDict pd /\
            pd !! str "mimeType" <> Some (JStr (str "text/plain"))) parts ->
  extract_text_from_payload (JDict d) = Ok [].
Proof.
  intros Hparts Hall.
  apply (extract_text_multipart_Ok d parts); [done|].
  assert (Forall part_ok parts /\ omap part_text parts = []) as [Hok Hnone].
  { clear Hparts.
    induction Hall as [|p parts (pd & -> & Hmime) _ [IH1 IH2]]; [done|].
    split.
    - constructor; [|done]. exists pd. split; [done|]. by intros ?.
    - cbn [omap list_omap part_text]. rewrite IH2.
      destruct (pd !! str "mimeType") as [[| | |mime| |]|]; try done.
      destruct (pd !! str "body") as [[| | | | |body]|]; try done.
      destruct (body !! str "data") as [[| | |[|c s]| |]|]; try done.
      case_bool_decide; [by subst|done]. }
  by rewrite Hnone.
Qed.

Lemma nested_parts_ignored_witness :
  extract_text_from_payload
    (multipart [dict [("mimeType", JStr (str "multipart/alternative"));
                      ("parts", JList [part "text/plain" (b64 "A")])]])
  = Ok [].
Proof.
  eapply nested_parts_ignored; [vm_compute; reflexivity|].
  repeat constructor. eexists. split; [reflexivity|].
  vm_compute. discriminate.
Defined.

Section MoreNormalizerFacts.

Context (unicode_lower : pystr -> pystr)
        (unicode_int : pystr -> option Z)
        (utcoffset : Z -> Z).

Local Abbreviation parse_message := (parse_message unicode_lower unicode_int utcoffset).
Local Abbreviation get_header_value_loop := (get_header_value_loop unicode_lower).
Local Abbreviation header_matches := (header_matches unicode_lower).
Local Abbreviation lower := (lower unicode_lower).

(** X1.  The messageText of a record has at most 503 characters: 500
    of the body and the three of the ellipsis marker. *)
Theorem message_text_length_bound m r :
  parse_message m = Ok r ->
  exists text, messageText r = JStr text /\ (length text <= 503)%nat.
Proof.
  intros (d & pd & ts & from & subj & text & -> & _ & _ & _ & _ & _
          & ->)%parse_message_Ok.
  eexists. split; [reflexivity|].
  destruct (Nat.ltb_spec 500 (length text)); [|lia].
  rewrite length_app, length_take. change (length (str "...")) with 3%nat. lia.
Qed.

(** X8.  The name of a header is compared without regard to the case of
    its ASCII letters: a header whose ASCII name, with A-Z replaced by
    a-z, reads like the wanted ASCII name treated the same way is a
    match, and the lookup returns its value ("FROM", "from" and "From"
    all answer a lookup of "From"). *)
Theorem header_name_ascii_case_insensitive hd n rest name :
  hd !! str "name" = Some (JStr n) ->
  is_ascii n = true -> is_ascii name = true ->
  ascii_lower <$> n = ascii_lower <$> name ->
  get_header_value_loop (JDict hd :: rest) name = Ok (header_value (JDict hd)).
Proof.
  intros Hn Han Haname Heq.
  rewrite (get_header_value_loop_cons _ hd n) by (by rewrite Hn).
  unfold Gmail.lower. rewrite Han, Haname.
  by rewrite bool_decide_eq_true_2.
Qed.

Lemma get_header_value_loop_ext a l1 l2 name :
  get_header_value_loop l1 name = get_header_value_loop l2 name ->
  get_header_value_loop (a :: l1) name = get_header_value_loop (a :: l2) name.
Proof.
  intros H. cbn [Gmail.get_header_value_loop].
  destruct (py_get a (str "name") _) as [n|]; rsimpl; [|done].
  destruct (py_lower _ n); rsimpl; [|done].
  by case_bool_decide.
Qed.

(** X9.  The first match wins and ends the lookup: the headers that
    follow the first matching header are never inspected, so replacing
    them by anything (further matches, or items that are not headers at
    all) leaves the result unchanged. *)
Theorem headers_after_match_ignored name h pre post post' :
  header_matches name h ->
  get_header_value_loop (pre ++ h :: post) name =
  get_header_value_loop (pre ++ h :: post') name.
Proof.
  intros (hd & n & -> & Hn & Hmatch).
  induction pre as [|a pre IH]; cbn [app].
  - rewrite !(get_header_value_loop_cons _ hd n) by done.
    by rewrite bool_decide_eq_true_2.
  - by apply get_header_value_loop_ext.
Qed.

End MoreNormalizerFacts.

Lemma message_text_length_bound_witness :
  exists r text,
    Gmail.parse_message no_unicode_lower no_unicode_int utc (message_with_body 600)
      = Ok r /\
    messageText r = JStr text /\ (length text <= 503)%nat.
Proof.
  assert (exists r, Gmail.parse_message no_unicode_lower no_unicode_int utc
                      (message_with_body 600) = Ok r) as [r Hr]
    by (eexists; vm_compute; reflexivity).
  destruct (message_text_length_bound no_unicode_lower no_unicode_int utc _ _ Hr)
    as (text & Htext & Hlen).
  exists r, text. split; [exact Hr|]. split; [exact Htext | exact Hlen].
Defined.

Lemma header_name_ascii_case_insensitive_witness :
  Gmail.get_header_value_loop no_unicode_lower
    [dict [("name", JStr (str "FROM")); ("value", JStr (str "a@b.com"))]]
    (str "From") = Ok (JStr (str "a@b.com")).
Proof.
  unfold dict.
  erewrite (header_name_ascii_case_insensitive no_unicode_lower _ (str "FROM"));
    [reflexivity | vm_compute; reflexivity ..].
Defined.

Lemma headers_after_match_ignored_witness :
  get_header_value_loop no_unicode_lower
    [dict [("name", JStr (str "From")); ("value", JStr (str "a@b.com"))];
     JNull; dict [("name", JStr (str "From")); ("value", JStr (str "x@y"))]]
    (str "From")
  = get_header_value_loop no_unicode_lower
      [dict [("name", JStr (str "From")); ("value", JStr (str "a@b.com"))]]
      (str "From").
Proof.
  apply (headers_after_match_ignored no_unicode_lower (str "From")
           (dict [("name", JStr (str "From")); ("value", JStr (str "a@b.com"))])
           []).
  eexists _, (str "From"). split; [reflexivity|]. split; [|reflexivity].
  vm_compute. reflexivity.
Defined.

(** ** Further properties of the client and of the orchestrator *)

Lemma mapM_result_app {A B} (f : A -> result B) l1 l2 :
  mapM f (l1 ++ l2) =
  (bs1 ← mapM f l1; bs2 ← mapM f l2; Ok (bs1 ++ bs2)).
Proof.
  induction l1 as [|a l1 IH]; cbn.
  - by destruct (mapM f l2).
  - destruct (f a) as [b|]; cbn; [|done]. rewrite IH.
    destruct (mapM f l1); cbn; [|done]. by destruct (mapM f l2).
Qed.

(** The first completion of a schedule, when it is that of a failing
    task, decides the exception. *)
Lemma gather_first_failure {A} (tasks : list (result A)) i sched e :
  tasks !! i = Some (Raise e) -> gather (i :: sched) tasks = Raise e.
Proof.
  intros Hi. unfold gather. cbn [app settle].
  rewrite lookup_replicate_2 by (by eapply lookup_lt_Some).
  by rewrite Hi.
Qed.

Section MoreOrchestratorFacts.

Context (unicode_lower : pystr -> pystr)
        (unicode_int : pystr -> option Z)
        (utcoffset : Z -> Z)
        (session_get : request -> result response).

Local Abbreviation parse_message := (parse_message unicode_lower unicode_int utcoffset).
Local Abbreviation _make_request := (_make_request session_get).
Local Abbreviation get_labels := (get_labels session_get).
Local Abbreviation get_profile := (get_profile session_get).
Local Abbreviation get_message_list := (get_message_list session_get).
Local Abbreviation get_message_details := (get_message_details session_get).
Local Abbreviation fetch_gmail_data_async :=
  (fetch_gmail_data_async unicode_lower unicode_int utcoffset session_get).

Lemma _make_request_Ok rq data :
  _make_request rq = Ok data <->
  exists resp, session_get rq = Ok resp /\
    200 <= status_code resp <= 299 /\ content resp = Some data.
Proof.
  unfold Gmail._make_request. split.
  - destruct (session_get rq) as [resp|]; rsimpl; [|done].
    zprune; try done. destruct (content resp) as [data'|] eqn:Hc; [|done].
    intros [= <-]. exists resp. split; [done|]. split; [lia|done].
  - intros (resp & -> & Hs & Hc). rsimpl. zprune. by rewrite Hc.
Qed.

(** X10.  [get_message_list] returns the ids of the messages of the
    response in the order of the response, for any number of them: the
    [maxResults] parameter is sent to the service and not enforced on
    what comes back. *)
Theorem get_message_list_ids max_results resp d msgs ids :
  session_get (GetMessages max_results) = Ok resp ->
  200 <= status_code resp <= 299 ->
  content resp = Some (JDict d) ->
  d !! str "messages" = Some (JList msgs) ->
  Forall2 (fun msg message_id =>
             exists md, msg = JDict md /\ md !! str "id" = Some message_id)
          msgs ids ->
  get_message_list max_results = Ok (JList ids).
Proof.
  intros Hresp Hs Hc Hm Hids. unfold Gmail.get_message_list.
  rewrite (proj2 (_make_request_Ok _ (JDict d))) by eauto.
  rsimpl. rewrite Hm. rsimpl. cbn [py_iter]. rsimpl.
  replace (mapM _ msgs) with (Ok ids); [done|].
  symmetry. apply mapM_result_Ok. clear Hm.
  induction Hids as [|msg i msgs ids (md & -> & Hi) _ IH]; [constructor|].
  constructor; [|done]. cbn. by rewrite Hi.
Qed.

(** X11.  A response without a "messages" key, which is what the service
    sends for an empty mailbox, gives the empty id list. *)
Theorem get_message_list_no_messages max_results resp d :
  session_get (GetMessages max_results) = Ok resp ->
  200 <= status_code resp <= 299 ->
  content resp = Some (JDict d) ->
  d !! str "messages" = None ->
  get_message_list max_results = Ok (JList []).
Proof.
  intros Hresp Hs Hc Hm. unfold Gmail.get_message_list.
  rewrite (proj2 (_make_request_Ok _ (JDict d))) by eauto.
  rsimpl. by rewrite Hm.
Qed.

(** X12.  A listed message without an "id" key makes [get_message_list]
    raise [KeyError], when the messages listed before it are objects
    with an id. *)
Theorem get_message_list_missing_id max_results resp d pre md post :
  session_get (GetMessages max_results) = Ok resp ->
  200 <= status_code resp <= 299 ->
  content resp = Some (JDict d) ->
  d !! str "messages" = Some (JList (pre ++ JDict md :: post)) ->
  Forall (fun msg => exists md', msg = JDict md' /\
                       is_Some (md' !! str "id")) pre ->
  md !! str "id" = None ->
  get_message_list max_results = Raise KeyError.
Proof.
  intros Hresp Hs Hc Hm Hpre Hid. unfold Gmail.get_message_list.
  rewrite (proj2 (_make_request_Ok _ (JDict d))) by eauto.
  rsimpl. rewrite Hm. rsimpl. cbn [py_iter]. rsimpl.
  rewrite mapM_result_app.
  assert (exists ids, mapM (fun msg => py_getitem msg (str "id")) pre = Ok ids)
    as [ids ->].
  { clear Hm.
    induction Hpre as [|msg pre (md' & -> & [i Hi]) _ [ids IH]]; [by exists []|].
    exists (i :: ids). cbn. rewrite Hi. cbn. by rewrite IH. }
  cbn. by rewrite Hid.
Qed.

(** X13.  [get_labels] returns a value exactly when the response has a
    status in 200..299 and a JSON object as body; the value is the
    "labels" entry of the body, and the empty list when the body has
    none. *)
Theorem get_labels_Ok v :
  get_labels = Ok v <->
  exists resp d,
    session_get GetLabels = Ok resp /\
    200 <= status_code resp <= 299 /\
    content resp = Some (JDict d) /\
    v = from_option id (JList []) (d !! str "labels").
Proof.
  unfold Gmail.get_labels. split.
  - destruct (_make_request GetLabels) as [data|] eqn:Hreq; rsimpl; [|done].
    apply _make_request_Ok in Hreq as (resp & Hresp & Hs & Hc).
    destruct data as [| | | | |d]; try done. rsimpl. intros [= <-].
    by exists resp, d.
  - intros (resp & d & Hresp & Hs & Hc & ->).
    by rewrite (proj2 (_make_request_Ok _ (JDict d))) by eauto.
Qed.

(** X14.  A response whose status is outside 200..299 makes each of the
    four operations of the client raise [HTTPStatusError] with that
    status, whatever the body of the response. *)
Theorem status_error_propagates rq resp :
  session_get rq = Ok resp ->
  ~ 200 <= status_code resp <= 299 ->
  match rq with
  | GetLabels => get_labels
  | GetProfile => get_profile
  | GetMessages max_results => get_message_list max_results
  | GetMessage message_id => get_message_details message_id
  end = Raise (HTTPStatusError (status_code resp)).
Proof.
  intros Hresp Hs.
  assert (_make_request rq = Raise (HTTPStatusError (status_code resp))) as Hreq.
  { unfold Gmail._make_request. rewrite Hresp. rsimpl. zprune; done. }
  destruct rq; unfold Gmail.get_labels, Gmail.get_profile,
    Gmail.get_message_list, Gmail.get_message_details; by rewrite Hreq.
Qed.

(** X15.  The outcome of a successful run does not depend on the order
    in which the requests complete: a result returned under one pair of
    completion orders is returned under every other. *)
Theorem fetch_result_schedule_independent sched1 sched2 sched1' sched2' fr :
  fetch_gmail_data_async sched1 sched2 = Ok fr ->
  fetch_gmail_data_async sched1' sched2' = Ok fr.
Proof.
  intros H%fetch_gmail_data_async_Ok. by apply fetch_gmail_data_async_Ok.
Qed.

(** X16.  When several requests of phase 1 fail, the exception that the
    caller sees is that of the failing task that completes first: if
    the task that completes first fails, its exception is raised. *)
Theorem first_completed_failure_wins i sched1 sched2 e :
  [get_labels; get_profile; get_message_list 10] !! i = Some (Raise e) ->
  fetch_gmail_data_async (i :: sched1) sched2 = Raise e.
Proof.
  intros Hi. unfold Gmail.fetch_gmail_data_async.
  by rewrite (gather_first_failure _ _ _ _ Hi).
Qed.

(** X17.  With an empty id list the run makes no detail request and
    returns the labels, the profile and no email, whatever the
    completion orders. *)
Theorem empty_mailbox_result sched1 sched2 l p :
  get_labels = Ok l -> get_profile = Ok p ->
  get_message_list 10 = Ok (JList []) ->
  fetch_gmail_data_async sched1 sched2 =
  Ok {| labels := l; profile := p; emails := [] |}.
Proof.
  intros Hl Hp Hm. apply fetch_gmail_data_async_Ok. exists [], [].
  by cbn.
Qed.

(** X18.  One message that [parse_message] rejects makes the whole run
    fail although every request succeeded: the exception of the first
    such message in list order is raised, whatever the completion
    orders. *)
Theorem parse_failure_aborts sched1 sched2 l p ids details e :
  get_labels = Ok l -> get_profile = Ok p ->
  get_message_list 10 = Ok (JList ids) ->
  get_message_details <$> ids = Ok <$> details ->
  mapM parse_message details = Raise e ->
  fetch_gmail_data_async sched1 sched2 = Raise e.
Proof.
  intros Hl Hp Hm Hd Hparse. unfold Gmail.fetch_gmail_data_async.
  rewrite (proj2 (gather_Ok sched1 _ [l; p; JList ids]))
    by (cbn; by rewrite Hl, Hp, Hm).
  rsimpl. cbn [py_iter]. rsimpl.
  rewrite (proj2 (gather_Ok sched2 _ details) Hd). rsimpl.
  by rewrite Hparse.
Qed.

End MoreOrchestratorFacts.

(** X19.  When phase 1 fails no detail request has any influence: two
    services that answer the three requests of phase 1 alike lead to the
    same exception, whatever they answer to detail requests. *)
Theorem phase1_failure_ignores_details unicode_lower unicode_int utcoffset
    (service service' : request -> result response) sched1 sched2 e :
  service GetLabels = service' GetLabels ->
  service GetProfile = service' GetProfile ->
  service (GetMessages 10) = service' (GetMessages 10) ->
  fetch_gmail_data_async unicode_lower unicode_int utcoffset service
    sched1 sched2 = Raise e ->
  Raise e ∈ [get_labels service; get_profile service;
             get_message_list service 10] ->
  fetch_gmail_data_async unicode_lower unicode_int utcoffset service'
    sched1 sched2 = Raise e.
Proof.
  intros Hl Hp Hm Hfetch Hfail.
  assert (get_labels service' = get_labels service) as Hl'
    by (unfold get_labels, _make_request; by rewrite Hl).
  assert (get_profile service' = get_profile service) as Hp'
    by (unfold get_profile, _make_request; by rewrite Hp).
  assert (get_message_list service' 10 = get_message_list service 10) as Hm'
    by (unfold get_message_list, _make_request; by rewrite Hm).
  unfold fetch_gmail_data_async in *. rewrite Hl', Hp', Hm'.
  destruct (gather sched1 _) as [vs|e'] eqn:Hg; [|done].
  apply gather_Ok in Hg. rewrite Hg in Hfail.
  apply list_elem_of_fmap in Hfail as (? & [=] & _).
Qed.

Lemma get_message_list_ids_witness :
  get_message_list mailbox_complete 10
  = Ok (JList [JStr (str "m1"); JStr (str "m2"); JStr (str "m3")]).
Proof.
  eapply (get_message_list_ids mailbox_complete 10);
    [reflexivity | vm_compute; by split | reflexivity
     | vm_compute; reflexivity |].
  repeat constructor; eexists; (split; [reflexivity|]); vm_compute; reflexivity.
Defined.

Lemma get_message_list_no_messages_witness :
  get_message_list empty_mailbox 10 = Ok (JList []).
Proof.
  eapply (get_message_list_no_messages empty_mailbox 10);
    [reflexivity | vm_compute; by split | reflexivity
     | vm_compute; reflexivity].
Defined.

Lemma get_message_list_missing_id_witness :
  get_message_list mailbox_missing_id 10 = Raise KeyError.
Proof.
  eapply (get_message_list_missing_id mailbox_missing_id 10 _ _
            [dict [("id", JStr (str "m1"))]] _ []);
    [reflexivity | vm_compute; by split | reflexivity
     | vm_compute; reflexivity | | vm_compute; reflexivity].
  repeat constructor. eexists. split; [reflexivity|].
  vm_compute. by eexists.
Defined.

Lemma status_error_propagates_witness :
  get_message_details mailbox_without_m2 (JStr (str "m2"))
  = Raise (HTTPStatusError 404).
Proof.
  apply (status_error_propagates mailbox_without_m2
           (GetMessage (JStr (str "m2")))
           {| status_code := 404; content := None |});
    [vm_compute; reflexivity | vm_compute; intros [? ?]; congruence].
Defined.

Lemma fetch_result_schedule_independent_witness :
  fetch_gmail_data_async no_unicode_lower no_unicode_int utc mailbox_complete
    [2; 1; 0]%nat [1; 2; 0]%nat
  = Ok {| labels := JList [dict [("id", JStr (str "INBOX"));
                                 ("name", JStr (str "INBOX"));
                                 ("type", JStr (str "system"))]];
          profile := dict [("emailAddress", JStr (str "a@b.com"))];
          emails := [id_record "m1"; id_record "m2"; id_record "m3"] |}.
Proof.
  apply (fetch_result_schedule_independent no_unicode_lower no_unicode_int utc
           mailbox_complete [] []).
  vm_compute. reflexivity.
Defined.

Lemma first_completed_failure_wins_witness :
  fetch_gmail_data_async no_unicode_lower no_unicode_int utc mailbox_failing
    [0; 1; 2]%nat [] = Raise (HTTPStatusError 500) /\
  fetch_gmail_data_async no_unicode_lower no_unicode_int utc mailbox_failing
    [1; 0; 2]%nat [] = Raise (HTTPStatusError 401).
Proof.
  split;
    apply (first_completed_failure_wins no_unicode_lower no_unicode_int utc
             mailbox_failing); vm_compute; reflexivity.
Defined.

Lemma empty_mailbox_result_witness :
  exists l p,
    fetch_gmail_data_async no_unicode_lower no_unicode_int utc empty_mailbox
      [1; 2; 0]%nat []
    = Ok {| labels := l; profile := p; emails := [] |}.
Proof.
  eexists _, _.
  apply (empty_mailbox_result no_unicode_lower no_unicode_int utc empty_mailbox);
    vm_compute; reflexivity.
Defined.

Lemma parse_failure_aborts_witness :
  fetch_gmail_data_async no_unicode_lower no_unicode_int utc
    mailbox_null_payload [0; 1; 2]%nat [2; 1; 0]%nat = Raise AttributeError.
Proof.
  eapply (parse_failure_aborts no_unicode_lower no_unicode_int utc
            mailbox_null_payload);
    [vm_compute; reflexivity | vm_compute; reflexivity
     | vm_compute; reflexivity | | ].
  - instantiate (1 := [dict [("id", JStr (str "m1"))];
                       dict [("id", JStr (str "m2")); ("payload", JNull)];
                       dict [("id", JStr (str "m3"))]]).
    vm_compute. reflexivity.
  - vm_compute. reflexivity.
Defined.

Lemma phase1_failure_ignores_details_witness :
  fetch_gmail_data_async no_unicode_lower no_unicode_int utc
    (fun rq => match rq with
               | GetMessage _ => Raise TransportError
               | _ => mailbox_failing rq
               end)
    [0; 1; 2]%nat [] = Raise (HTTPStatusError 500).
Proof.
  apply (phase1_failure_ignores_details no_unicode_lower no_unicode_int utc
           mailbox_failing);
    [reflexivity | reflexivity | reflexivity | vm_compute; reflexivity |].
  vm_compute. left.
Defined.

(** ** The presentation *)

Lemma py_join_strs sep ids :
  py_join sep (JList (JStr <$> ids)) = Ok (join sep ids).
Proof.
  unfold py_join. cbn [py_iter]. rsimpl.
  replace (mapM _ (JStr <$> ids)) with (Ok ids); [done|].
  symmetry. apply mapM_result_Ok.
  induction ids; constructor; done.
Qed.

Section FormatterFacts.

Context (py_repr : json -> pystr).

Local Abbreviation format_label := (format_label py_repr).
Local Abbreviation format_email := (format_email py_repr).
Local Abbreviation format_emails := (format_emails py_repr).
Local Abbreviation format_entries := (format_entries py_repr).
Local Abbreviation format_output := (format_output py_repr).
Local Abbreviation py_format := (py_format py_repr).

Lemma format_email_length i email entries :
  format_email i email = Ok entries -> length entries = 10%nat.
Proof.
  unfold Gmail.format_email.
  destruct (if truthy _ then _ else _); rsimpl; [|done].
  destruct (py_slice_to _ _); rsimpl; [|done].
  destruct (py_len _); rsimpl; [|done].
  by intros [= <-].
Qed.

Lemma format_emails_length emails : forall i entries,
  format_emails i emails = Ok entries ->
  length entries = (10 * length emails)%nat.
Proof.
  induction emails as [|email rest IH]; intros i entries; cbn.
  - by intros [= <-].
  - destruct (format_email i email) as [es|] eqn:He; rsimpl; [|done].
    destruct (format_emails (i + 1) rest) as [more|] eqn:Hm; rsimpl; [|done].
    intros [= <-]. rewrite length_app, (format_email_length _ _ _ He).
    rewrite (IH _ _ Hm). lia.
Qed.

Lemma format_email_total i email :
  printable_email email -> exists entries, format_email i email = Ok entries.
Proof.
  intros [Hlabels Htext]. unfold Gmail.format_email.
  apply is_str_inv in Htext as [text ->].
  destruct Hlabels as [->|[ids ->]]; [by eexists|].
  destruct (truthy _); rewrite ?py_join_strs; by eexists.
Qed.

Lemma format_emails_total emails : forall i,
  Forall printable_email emails ->
  exists entries, format_emails i emails = Ok entries.
Proof.
  induction emails as [|email rest IH]; intros i Hall; [by exists []|].
  apply Forall_cons_1 in Hall as [He Hrest]. cbn.
  destruct (format_email_total i email He) as [es ->]. rsimpl.
  destruct (IH (i + 1) Hrest) as [more ->]. rsimpl. by eexists.
Qed.

(** A label that the loop can print: an object with a name. *)
Lemma format_label_total label :
  (exists ld, label = JDict ld /\ is_Some (ld !! str "name")) ->
  exists line, format_label label = Ok line.
Proof.
  intros (ld & -> & [name Hname]). unfold Gmail.format_label. rsimpl.
  rewrite Hname. rsimpl. by eexists.
Qed.

Lemma format_output_returns data ls :
  is_dict (profile data) = true ->
  labels data = JList ls ->
  Forall (fun l => exists ld, l = JDict ld /\ is_Some (ld !! str "name")) ls ->
  Forall printable_email (emails data) ->
  exists text, format_output data = Ok text.
Proof.
  intros [pd Hp]%is_dict_inv Hl Hls Hemails.
  unfold Gmail.format_output, Gmail.format_entries. rewrite Hp, Hl. rsimpl.
  cbn [py_iter]. rsimpl.
  assert (exists lines, mapM format_label ls = Ok lines) as [lines ->].
  { clear Hl.
    induction Hls as [|l ls Hlabel _ [lines IH]]; [by exists []|].
    destruct (format_label_total l Hlabel) as [line Hline].
    exists (line :: lines). cbn. rewrite Hline. rsimpl. by rewrite IH. }
  rsimpl. destruct (format_emails_total _ 1 Hemails) as [es ->]. rsimpl.
  by eexists.
Qed.

(** X20.  [format_output] never raises on a result whose profile is an
    object, whose labels are a list of objects that have a name, and
    whose emails have a str as messageText and, as labelIds, a false
    value or a list of strs. *)
Theorem format_output_total data ls :
  is_dict (profile data) = true ->
  labels data = JList ls ->
  Forall (fun l => exists ld, l = JDict ld /\ is_Some (ld !! str "name")) ls ->
  Forall printable_email (emails data) ->
  exists text, format_output data = Ok text.
Proof. apply format_output_returns. Qed.

(** X21.  A label without a "name" key makes [format_output] raise
    [KeyError], when the profile is an object and the labels before it
    have a name. *)
Theorem format_output_label_without_name data pre ld post :
  is_dict (profile data) = true ->
  labels data = JList (pre ++ JDict ld :: post) ->
  Forall (fun l => exists ld', l = JDict ld' /\ is_Some (ld' !! str "name")) pre ->
  ld !! str "name" = None ->
  format_output data = Raise KeyError.
Proof.
  intros [pd Hp]%is_dict_inv Hl Hpre Hname.
  unfold Gmail.format_output, Gmail.format_entries. rewrite Hp, Hl. rsimpl.
  cbn [py_iter]. rsimpl. rewrite mapM_result_app.
  assert (exists lines, mapM format_label pre = Ok lines) as [lines ->].
  { clear Hl.
    induction Hpre as [|l ls Hlabel _ [lines IH]]; [by exists []|].
    destruct (format_label_total l Hlabel) as [line Hline].
    exists (line :: lines). cbn. rewrite Hline. rsimpl. by rewrite IH. }
  rsimpl. cbn [mapM].
  assert (format_label (JDict ld) = Raise KeyError) as ->
    by (unfold Gmail.format_label; rsimpl; by rewrite Hname).
  done.
Qed.

(** X22.  The list that [format_output] joins has 15 fixed entries, one
    entry per label and ten entries per email. *)
Theorem format_entries_count data entries :
  format_entries data = Ok entries ->
  exists items,
    py_iter (labels data) = Ok items /\
    length entries = (15 + length items + 10 * length (emails data))%nat.
Proof.
  unfold Gmail.format_entries.
  destruct (py_get (profile data) (str "emailAddress") _); rsimpl; [|done].
  destruct (py_get (profile data) (str "messagesTotal") _); rsimpl; [|done].
  destruct (py_get (profile data) (str "threadsTotal") _); rsimpl; [|done].
  destruct (py_get (profile data) (str "historyId") _); rsimpl; [|done].
  destruct (py_iter (labels data)) as [items|]; rsimpl; [|done].
  destruct (mapM format_label items) as [lines|] eqn:Hlines; rsimpl; [|done].
  destruct (format_emails 1 (emails data)) as [es|] eqn:Hes; rsimpl; [|done].
  intros H. exists items. split; [done|].
  apply mapM_result_Ok, Forall2_length in Hlines.
  apply format_emails_length in Hes.
  apply (f_equal (fun r => match r with
                           | Ok l => length l
                           | Raise _ => 0%nat
                           end)) in H.
  cbv beta iota in H. rewrite <- H, !length_app. cbn [length]. lia.
Qed.

End FormatterFacts.

Section PreviewFacts.

Context (unicode_lower : pystr -> pystr)
        (unicode_int : pystr -> option Z)
        (utcoffset : Z -> Z)
        (py_repr : json -> pystr).

(** X23.  The two truncations compose: for a record that
    [parse_message] produced from a payload whose extracted text is
    [text], the preview entry that [format_output] prints is the first
    100 characters of [text], followed by one ellipsis marker when
    [text] has more than 100 characters. *)
Theorem preview_of_parsed_message m r i entries d pd text :
  parse_message unicode_lower unicode_int utcoffset m = Ok r ->
  m = JDict d ->
  from_option id (JDict ∅) (d !! str "payload") = JDict pd ->
  extract_text_from_payload (JDict pd) = Ok text ->
  format_email py_repr i r = Ok entries ->
  entries !! 8%nat =
  Some (str "Preview: " ++ take 100 text
        ++ (if (100 <? length text)%nat then str "..." else [])).
Proof.
  intros (d' & pd' & ts & from & subj & text' & -> & Hpd & _ & _ & _
          & Htext & ->)%parse_message_Ok [= <-] Hpd' Htext'.
  rewrite Hpd in Hpd'. injection Hpd' as <-.
  rewrite Htext in Htext'. injection Htext' as <-.
  unfold format_email. cbn [messageText labelIds]. intros Hfmt.
  destruct (if truthy _ then _ else _) as [labels_text|]; rsimpl in Hfmt;
    [|discriminate Hfmt].
  cbn [py_slice_to py_len] in Hfmt. rsimpl in Hfmt.
  apply (f_equal (fun r => match r with
                           | Ok l => l !! 8%nat
                           | Raise _ => None
                           end)) in Hfmt.
  cbv beta iota in Hfmt. rewrite <- Hfmt. cbn [lookup list_lookup py_format].
  do 2 f_equal.
  destruct (Nat.ltb_spec 500 (length text')) as [Hlong|Hshort].
  - rewrite take_app_le by (rewrite length_take; lia).
    rewrite take_take, Nat.min_l by lia.
    rewrite length_app, length_take, Nat.min_l by lia.
    rewrite (proj2 (Nat.ltb_lt 100 _)) by lia.
    by rewrite (proj2 (Nat.ltb_lt 100 _)) by lia.
  - done.
Qed.

End PreviewFacts.

Lemma format_output_total_witness :
  exists text, format_output no_repr sample_result = Ok text.
Proof.
  eapply (format_output_total no_repr sample_result);
    [reflexivity | reflexivity | |].
  - apply Forall_cons. split; [|constructor].
    eexists. split; [reflexivity|]. vm_compute. by eexists.
  - apply Forall_cons. split.
    { split; [right; by exists [str "INBOX"] | reflexivity]. }
    apply Forall_cons. split; [|constructor].
    split; [by left | reflexivity].
Defined.

Lemma format_output_label_without_name_witness :
  format_output no_repr result_with_unnamed_label = Raise KeyError.
Proof.
  eapply (format_output_label_without_name no_repr result_with_unnamed_label
            [] _ []);
    [reflexivity | reflexivity | constructor | vm_compute; reflexivity].
Defined.

Lemma format_entries_count_witness :
  exists entries,
    format_entries no_repr sample_result = Ok entries /\
    length entries = 36%nat.
Proof.
  assert (exists entries, format_entries no_repr sample_result = Ok entries)
    as [entries Hentries] by (eexists; vm_compute; reflexivity).
  exists entries. split; [exact Hentries|].
  destruct (format_entries_count no_repr _ _ Hentries) as (items & Hitems & ->).
  injection Hitems as <-. reflexivity.
Defined.

Lemma preview_of_parsed_message_witness :
  exists r entries,
    parse_message no_unicode_lower no_unicode_int utc (message_with_body 600)
      = Ok r /\
    format_email no_repr 1 r = Ok entries /\
    entries !! 8%nat = Some (str "Preview: " ++ replicate 100 97 ++ str "...").
Proof.
  assert (exists r, parse_message no_unicode_lower no_unicode_int utc
                      (message_with_body 600) = Ok r) as [r Hr]
    by (eexists; vm_compute; reflexivity).
  assert (exists entries, format_email no_repr 1 r = Ok entries)
    as [entries Hentries].
  { vm_compute in Hr. injection Hr as <-. eexists. vm_compute. reflexivity. }
  exists r, entries. split; [exact Hr|]. split; [exact Hentries|].
  erewrite (preview_of_parsed_message no_unicode_lower no_unicode_int utc
              no_repr _ r 1 entries _ _ (replicate 600 97) Hr);
    [reflexivity | reflexivity | vm_compute; reflexivity
     | vm_compute; reflexivity | exact Hentries].
Defined.

(** ** The pipeline of [main]: fetch, then print *)

Section PipelineFacts.

Context (unicode_lower : pystr -> pystr)
        (unicode_int : pystr -> option Z)
        (utcoffset : Z -> Z)
        (session_get : request -> result response)
        (py_repr : json -> pystr).

Local Abbreviation parse_message := (parse_message unicode_lower unicode_int utcoffset).
Local Abbreviation fetch_gmail_data_async :=
  (fetch_gmail_data_async unicode_lower unicode_int utcoffset session_get).
Local Abbreviation format_output := (format_output py_repr).

Lemma parsed_email_printable m r :
  label_ids_are_strs m -> parse_message m = Ok r -> printable_email r.
Proof.
  intros Hlabels (d & pd & ts & from & subj & text & -> & _ & _ & _ & _ & _
                  & ->)%parse_message_Ok.
  split; [|done]. cbn [labelIds].
  destruct (d !! str "labelIds") as [v|] eqn:Hv; [|by left].
  right. by apply (Hlabels d v).
Qed.

(** X24.  The two steps of [main] compose: when the fetch returns a
    result whose profile is an object and whose labels are a list of
    objects that have a name, and the service only sends messages whose
    labelIds are a list of strs, [format_output] prints the result
    without raising. *)
Theorem fetch_then_format_succeeds sched1 sched2 data ls :
  fetch_gmail_data_async sched1 sched2 = Ok data ->
  is_dict (profile data) = true ->
  labels data = JList ls ->
  Forall (fun l => exists ld, l = JDict ld /\ is_Some (ld !! str "name")) ls ->
  (forall message_id detail,
     get_message_details session_get message_id = Ok detail ->
     label_ids_are_strs detail) ->
  exists text, format_output data = Ok text.
Proof.
  intros (ids & details & _ & _ & _ & Hd & Hparse)%fetch_gmail_data_async_Ok
         Hp Hl Hls Hservice.
  apply (format_output_returns py_repr data ls); [done..|].
  apply mapM_result_Ok in Hparse.
  assert (Forall label_ids_are_strs details) as Hdetails.
  { clear Hparse. revert details Hd.
    induction ids as [|i ids IH]; intros [|detail details]; try done.
    cbn. intros [= Hi Hrest]. constructor; [by eapply Hservice | by apply IH]. }
  clear Hd. revert Hdetails.
  induction Hparse as [|detail r details rs Hr _ IH]; [constructor|].
  intros [Hdetail Hrest]%Forall_cons_1. constructor; [|by apply IH].
  by eapply parsed_email_printable.
Qed.

End PipelineFacts.

Lemma fetch_then_format_succeeds_witness :
  exists data text,
    fetch_gmail_data_async no_unicode_lower no_unicode_int utc mailbox_complete
      [2; 0; 1]%nat [1; 2; 0]%nat = Ok data /\
    format_output no_repr data = Ok text.
Proof.
  assert (exists data,
            fetch_gmail_data_async no_unicode_lower no_unicode_int utc
              mailbox_complete [2; 0; 1]%nat [1; 2; 0]%nat = Ok data)
    as [data Hdata] by (eexists; vm_compute; reflexivity).
  destruct (fetch_then_format_succeeds no_unicode_lower no_unicode_int utc
              mailbox_complete no_repr _ _ data
              [dict [("id", JStr (str "INBOX")); ("name", JStr (str "INBOX"));
                     ("type", JStr (str "system"))]] Hdata)
    as [text Htext].
  - vm_compute in Hdata. injection Hdata as <-. reflexivity.
  - vm_compute in Hdata. injection Hdata as <-. reflexivity.
  - apply Forall_cons. split; [|constructor].
    eexists. split; [reflexivity|]. vm_compute. by eexists.
  - intros message_id detail Hdetail d v -> Hv.
    vm_compute in Hdetail. injection Hdetail as <-.
    vm_compute in Hv. discriminate Hv.
  - by exists data, text.
Defined.

(** ** The first test and the time zone of the host *)

Lemma civil_time_2023 off :
  -86400 <= off < 86400 ->
  exists h mi s,
    civil_time (1672531200 + off) =
    if 0 <=? off
    then {| tm_year := 2023; tm_mon := 1; tm_mday := 1;
            tm_hour := h; tm_min := mi; tm_sec := s |}
    else {| tm_year := 2022; tm_mon := 12; tm_mday := 31;
            tm_hour := h; tm_min := mi; tm_sec := s |}.
Proof.
  intros Hoff. unfold civil_time, civil_from_days.
  destruct (Z.leb_spec 0 off).
  - replace ((1672531200 + off) / 86400) with 19358 by zdiv.
    change (_ord2ymd (19358 + 719163)) with (2023, 1, 1). by eexists _, _, _.
  - replace ((1672531200 + off) / 86400) with 19357 by zdiv.
    change (_ord2ymd (19357 + 719163)) with (2022, 12, 31). by eexists _, _, _.
Qed.

Section TestFacts.

Context (unicode_lower : pystr -> pystr)
        (unicode_int : pystr -> option Z)
        (utcoffset : Z -> Z).

Local Abbreviation parse_message := (parse_message unicode_lower unicode_int utcoffset).

(** X25.  What [test_complete_payload_parsing] asserts about the ids,
    the labels, the sender, the subject, the text and the length of the
    timestamp holds on every host; its assertion that the timestamp
    starts with 2023-01-01 holds exactly on the hosts whose clock is not
    behind UTC at that instant: behind UTC the date is 2022-12-31. *)
Theorem complete_payload_test_depends_on_zone :
  -86400 <= utcoffset 1672531200 < 86400 ->
  exists r ts,
    parse_message complete_message_payload = Ok r /\
    messageId r = JStr (str "msg_complete_12345") /\
    threadId r = JStr (str "thread_complete_67890") /\
    labelIds r = JList [JStr (str "INBOX"); JStr (str "IMPORTANT");
                        JStr (str "CATEGORY_PERSONAL")] /\
    sender r = JStr (str "john.doe@example.com") /\
    subject r = JStr (str "Complete Test Email Subject") /\
    messageText r = JStr test_message_text /\
    messageTimestamp r = JStr ts /\
    length ts = 19%nat /\
    take 10 ts = if 0 <=? utcoffset 1672531200
                 then str "2023-01-01" else str "2022-12-31".
Proof.
  intros Hoff.
  destruct (civil_time_2023 _ Hoff) as (h & mi & s & Htm).
  assert (localtime utcoffset 1672531200
          = civil_time (1672531200 + utcoffset 1672531200)) as Hlocal.
  { unfold localtime. by rewrite local_offset_within by lia. }
  set (tm := civil_time (1672531200 + utcoffset 1672531200)) in *.
  exists {| messageId := JStr (str "msg_complete_12345");
            threadId := JStr (str "thread_complete_67890");
            messageTimestamp := JStr (strftime tm);
            labelIds := JList [JStr (str "INBOX"); JStr (str "IMPORTANT");
                               JStr (str "CATEGORY_PERSONAL")];
            sender := JStr (str "john.doe@example.com");
            subject := JStr (str "Complete Test Email Subject");
            messageText := JStr test_message_text |}, (strftime tm).
  split.
  - apply parse_message_Ok. unfold complete_message_payload, dict.
    eexists _, _, (strftime tm), (JStr (str "john.doe@example.com")),
      (JStr (str "Complete Test Email Subject")), test_message_text.
    split; [reflexivity|].
    split; [eval_lookups; reflexivity|].
    split.
    { eval_lookups. cbv zeta. cbn [from_option id truthy].
      replace (py_int unicode_int _) with (Ok 1672531200000)
        by (vm_compute; reflexivity).
      rsimpl.
      rewrite (fromtimestamp_ms_safe utcoffset 1672531200000)
        by (vm_compute; split; discriminate).
      change (1672531200000 / 1000) with 1672531200. by rewrite Hlocal. }
    split; [eval_lookups; vm_compute; reflexivity|].
    split; [eval_lookups; vm_compute; reflexivity|].
    split; [vm_compute; reflexivity|].
    eval_lookups. f_equal.
  - repeat (split; [reflexivity|]).
    rewrite Htm. by destruct (0 <=? _).
Qed.

End TestFacts.

Lemma complete_payload_test_depends_on_zone_witness :
  (exists r,
     parse_message no_unicode_lower no_unicode_int (fun _ => 3600)
       complete_message_payload = Ok r /\
     messageTimestamp r = JStr (str "2023-01-01 01:00:00")) /\
  (exists r,
     parse_message no_unicode_lower no_unicode_int (fun _ => -18000)
       complete_message_payload = Ok r /\
     messageTimestamp r = JStr (str "2022-12-31 19:00:00")).
Proof.
  split.
  - destruct (complete_payload_test_depends_on_zone no_unicode_lower
                no_unicode_int (fun _ => 3600))
      as (r & ts & Hr & _); [lia|].
    exists r. split; [exact Hr|].
    vm_compute in Hr. by injection Hr as <-.
  - destruct (complete_payload_test_depends_on_zone no_unicode_lower
                no_unicode_int (fun _ => -18000))
      as (r & ts & Hr & _); [lia|].
    exists r. split; [exact Hr|].
    vm_compute in Hr. by injection Hr as <-.
Defined.
